(** * klugai_iam: gateway, authentication and authorization services

    A shallow embedding of the four Python sources

    - [services/authentication-service/src/services/user_service.py]
    - [services/authentication-service/main.py]
    - [services/authorization-service/main.py]
    - [services/api-gateway/main.py]

    followed by the properties of the specification that concern them.

    Conventions.  Python exceptions are the type [exn]; a call that may
    raise has type [outcome A].  The user service threads its database
    rows, its audit table, its [_user_cache] dictionary and its metrics
    through a state-and-exception monad [Svc].  Wall-clock readings
    ([datetime.utcnow()], [time.time()]) are whole seconds in [Z] and are
    an argument of the operation that reads the clock.  Random tokens
    ([secrets.token_urlsafe], [bcrypt.gensalt]) are arguments as well. *)

From stdpp Require Import base gmap strings list fin_maps pretty.
From Stdlib Require Import ZArith String Ascii Lia.

Set Warnings "-register-all".

Open Scope string_scope.
Open Scope list_scope.
Open Scope Z_scope.

(** ** Python strings *)

(** [s.startswith(p)] *)
Definition startswith (s p : string) : bool := String.prefix p s.

(** [s.endswith(p)] *)
Definition endswith (s p : string) : bool :=
  String.prefix (String.rev p) (String.rev s).

Fixpoint drop_chars (n : nat) (s : string) : string :=
  match n, s with
  | O, _ => s
  | S n', String _ s' => drop_chars n' s'
  | S _, EmptyString => EmptyString
  end.

(** [s.replace(old, new, 1)]: the leftmost occurrence of [old], wherever
    it is, is replaced; [s] is returned as it is when there is none. *)
Fixpoint replace_first (old new s : string) : string :=
  if String.prefix old s then new +:+ drop_chars (String.length old) s
  else match s with
       | EmptyString => EmptyString
       | String c s' => String c (replace_first old new s')
       end.


(** ** JSON values, exceptions, HTTP responses *)

Inductive json : Type :=
| JNull
| JBool (b : bool)
| JNum (n : Z)
| JStr (s : string)
| JArr (items : list json)
| JObj (members : list (string * json)).

Fixpoint assoc {A : Type} (k : string) (l : list (string * A)) : option A :=
  match l with
  | [] => None
  | (k', v) :: l' => if String.eqb k k' then Some v else assoc k l'
  end.

(** [j[k]] for an object [j]; [None] when [j] is no object or has no [k]. *)
Definition json_get (k : string) (j : json) : option json :=
  match j with
  | JObj members => assoc k members
  | _ => None
  end.

(** [fastapi.HTTPException] is a subclass of [Exception]: a handler for
    [Exception] catches both constructors, one for [HTTPException] only
    the first. *)
Inductive exn : Type :=
| HTTPException (status_code : Z) (detail : string)
| Exception (message : string).

(** [str(e)] *)
Definition str_exn (e : exn) : string :=
  match e with
  | HTTPException c d => pretty c +:+ ": " +:+ d
  | Exception m => m
  end.

Inductive outcome (A : Type) : Type :=
| Return (a : A)
| Raise (e : exn).
Arguments Return {A} a.
Arguments Raise {A} e.

Definition obind {A B : Type} (m : outcome A) (k : A -> outcome B) : outcome B :=
  match m with
  | Return a => k a
  | Raise e => Raise e
  end.

(** [try: m  except HTTPException: raise  except Exception as e: h e] *)
Definition try_reraise_http {A : Type} (m : outcome A) (h : string -> outcome A)
  : outcome A :=
  match m with
  | Raise (Exception m) => h m
  | other => other
  end.

(** [try: m  except Exception as e: h e] *)
Definition try_except {A : Type} (m : outcome A) (h : exn -> outcome A) : outcome A :=
  match m with
  | Raise e => h e
  | other => other
  end.

Record Response : Type := JSONResponse {
  status_code : Z;
  content : json
}.

(** ** bcrypt

    The two entry points of the [bcrypt] package the user service calls.
    Both may raise ([None]): [hashpw] on a password it refuses,
    [checkpw] on a stored value that is no bcrypt hash. *)
Class Bcrypt : Type := {
  hashpw : string -> string -> option string;
  checkpw : string -> string -> option bool
}.

(** The contract of an adaptive salted hash: a password verifies against
    a hash exactly when it is the password that was hashed. *)
Class BcryptSound (B : Bcrypt) : Prop := {
  checkpw_hashpw : forall p p' salt h,
    hashpw p' salt = Some h -> checkpw p h = Some (bool_decide (p = p'))
}.

(** * The user service ([user_service.py]) *)

Module UserService.

(** Modelled from the spec: the [UserModel] table.  Its declaration
    ([src/database/models.py]) is not part of the sources; the columns
    are the ones [user_service.py] reads and writes, typed after the
    specification's data model.  [failed_login_attempts] starts at 0 and
    the nullable columns at NULL for a row [create_user] inserts. *)
Record UserModel : Type := mkUser {
  id : string;
  username : string;
  email : string;
  first_name : option string;
  last_name : option string;
  display_name : option string;
  roles : list string;
  primary_role : string;
  is_active : bool;
  email_verified : bool;
  mfa_enabled : bool;
  password_hash : string;
  failed_login_attempts : Z;
  locked_until : option Z;
  last_login : option Z;
  created_at : Z;
  updated_at : option Z;
  metadata : list (string * json)
}.

(** Modelled from the spec: the [AuditLogModel] table
    ([src/database/models.py]), with the columns [_log_auth_event]
    fills.  The random primary key of an audit row is left out. *)
Record AuditLogModel : Type := mkAudit {
  audit_user_id : option string;
  event_type : string;
  success : bool;
  audit_metadata : list (string * json);
  audit_created_at : Z
}.

(** A value of [self._user_cache]: [{"user": user_data, "expires": t}].
    The [user_data] dictionary has one key per column, so it is kept as
    a [UserModel] record (see [user_data_of]). *)
Record CacheEntry : Type := mkEntry {
  user : UserModel;
  expires : Z
}.

(** [self.metrics] *)
Record Metrics : Type := mkMetrics {
  total_users : Z;
  active_users : Z;
  locked_users : Z;
  failed_attempts_today : Z;
  successful_logins_today : Z
}.

(** The mutable state a [UserService] works on: the two tables behind
    [db_manager], the cache dictionary and the metrics. *)
Record ServiceState : Type := mkState {
  users : list UserModel;
  audit_log : list AuditLogModel;
  _user_cache : gmap string CacheEntry;
  metrics : Metrics
}.

(** [config.security] *)
Record AuthServiceConfig : Type := mkConfig {
  max_failed_attempts : Z;
  lockout_duration_minutes : Z
}.

(** [timedelta(minutes=...)] in seconds *)
Definition lockout_duration (config : AuthServiceConfig) : Z :=
  60 * lockout_duration_minutes config.

Definition _cache_ttl : Z := 300.

(** The [user_data] argument of [create_user]: a dictionary in which any
    key may be missing. *)
Record CreateUserData : Type := mkCreate {
  cu_username : option string;
  cu_email : option string;
  cu_password : option string;
  cu_first_name : option string;
  cu_last_name : option string;
  cu_display_name : option string;
  cu_roles : option (list string);
  cu_primary_role : option string;
  cu_is_active : option bool;
  cu_email_verified : option bool;
  cu_mfa_enabled : option bool;
  cu_metadata : option (list (string * json))
}.

(** The [update_data] argument of [update_user], cut down to the keys of
    [allowed_fields] (the others are never read). [None]: key absent. *)
Record UpdateData : Type := mkUpdate {
  up_first_name : option (option string);
  up_last_name : option (option string);
  up_display_name : option (option string);
  up_email : option string;
  up_roles : option (list string);
  up_primary_role : option string;
  up_is_active : option bool;
  up_email_verified : option bool;
  up_mfa_enabled : option bool;
  up_metadata : option (list (string * json))
}.

(** ** The state-and-exception monad *)

Definition Svc (A : Type) : Type := ServiceState -> outcome A * ServiceState.

Definition ret {A : Type} (a : A) : Svc A := fun s => (Return a, s).

Definition bind {A B : Type} (m : Svc A) (k : A -> Svc B) : Svc B :=
  fun s => match m s with
           | (Return a, s') => k a s'
           | (Raise e, s') => (Raise e, s')
           end.

Definition raise {A : Type} (e : exn) : Svc A := fun s => (Raise e, s).

Definition lift {A : Type} (o : outcome A) : Svc A := fun s => (o, s).

Definition gets {A : Type} (f : ServiceState -> A) : Svc A := fun s => (Return (f s), s).

Definition modify (f : ServiceState -> ServiceState) : Svc unit :=
  fun s => (Return tt, f s).

(** [try: m  except Exception as e: h e].  What [m] wrote before it
    raised stays written. *)
Definition try_ {A : Type} (m : Svc A) (h : exn -> Svc A) : Svc A :=
  fun s => match m s with
           | (Raise e, s') => h e s'
           | r => r
           end.

Declare Scope svc_scope.
Delimit Scope svc_scope with svc.
Notation "x <- m ;; k" := (bind m (fun x => k))
  (at level 100, m at next level, right associativity) : svc_scope.
Notation "m ;; k" := (bind m (fun _ => k))
  (at level 100, right associativity) : svc_scope.
Open Scope svc_scope.

(** ** Database statements *)

Definition set_users (f : list UserModel -> list UserModel) (s : ServiceState)
  : ServiceState :=
  mkState (f (users s)) (audit_log s) (_user_cache s) (metrics s).

Definition set_cache (f : gmap string CacheEntry -> gmap string CacheEntry)
  (s : ServiceState) : ServiceState :=
  mkState (users s) (audit_log s) (f (_user_cache s)) (metrics s).

Definition set_metrics (f : Metrics -> Metrics) (s : ServiceState) : ServiceState :=
  mkState (users s) (audit_log s) (_user_cache s) (f (metrics s)).

(** [result.scalar_one_or_none()] *)
Definition scalar_one_or_none {A : Type} (rows : list A) : outcome (option A) :=
  match rows with
  | [] => Return None
  | [r] => Return (Some r)
  | _ => Raise (Exception "MultipleResultsFound")
  end.

(** [select(UserModel).where(p)] *)
Definition select_where (p : UserModel -> bool) : Svc (list UserModel) :=
  gets (fun s => List.filter p (users s)).

(** [update(UserModel).where(p).values(...)], committed; the result is
    [rowcount]. *)
Definition update_where (p : UserModel -> bool) (f : UserModel -> UserModel)
  : Svc nat :=
  n <- gets (fun s => List.length (List.filter p (users s))) ;;
  modify (set_users (List.map (fun r => if p r then f r else r))) ;;
  ret n.

(** [delete(UserModel).where(p)], committed; the result is [rowcount]. *)
Definition delete_where (p : UserModel -> bool) : Svc nat :=
  n <- gets (fun s => List.length (List.filter p (users s))) ;;
  modify (set_users (List.filter (fun r => negb (p r)))) ;;
  ret n.

Definition by_id (user_id : string) (r : UserModel) : bool := String.eqb (id r) user_id.

Definition by_username (name : string) (r : UserModel) : bool :=
  String.eqb (username r) name.

(** ** Row updates: the [.values(...)] of each UPDATE statement *)

(** [.values(password_hash=h, updated_at=now)] *)
Definition values_password (h : string) (now : Z) (r : UserModel) : UserModel :=
  mkUser (id r) (username r) (email r) (first_name r) (last_name r) (display_name r)
    (roles r) (primary_role r) (is_active r) (email_verified r) (mfa_enabled r)
    h (failed_login_attempts r) (locked_until r) (last_login r)
    (created_at r) (Some now) (metadata r).

(** [.values(failed_login_attempts=n, locked_until=l, updated_at=now)] *)
Definition values_attempts (n : Z) (l : option Z) (now : Z) (r : UserModel) : UserModel :=
  mkUser (id r) (username r) (email r) (first_name r) (last_name r) (display_name r)
    (roles r) (primary_role r) (is_active r) (email_verified r) (mfa_enabled r)
    (password_hash r) n l (last_login r)
    (created_at r) (Some now) (metadata r).

(** [.values(last_login=now, updated_at=now)] *)
Definition values_last_login (now : Z) (r : UserModel) : UserModel :=
  mkUser (id r) (username r) (email r) (first_name r) (last_name r) (display_name r)
    (roles r) (primary_role r) (is_active r) (email_verified r) (mfa_enabled r)
    (password_hash r) (failed_login_attempts r) (locked_until r) (Some now)
    (created_at r) (Some now) (metadata r).

(** The values [update_user] passes to its UPDATE statement *)
Definition values_update (u : UpdateData) (now : Z) (r : UserModel) : UserModel :=
  mkUser (id r) (username r)
    (default (email r) (up_email u))
    (default (first_name r) (up_first_name u))
    (default (last_name r) (up_last_name u))
    (default (display_name r) (up_display_name u))
    (default (roles r) (up_roles u))
    (default (primary_role r) (up_primary_role u))
    (default (is_active r) (up_is_active u))
    (default (email_verified r) (up_email_verified u))
    (default (mfa_enabled r) (up_mfa_enabled u))
    (password_hash r) (failed_login_attempts r) (locked_until r) (last_login r)
    (created_at r) (Some now) (default (metadata r) (up_metadata u)).

Definition key_if {A : Type} (o : option A) (k : string) : list string :=
  match o with Some _ => [k] | None => [] end.

(** The keys of [update_fields] before [updated_at] is added, in the
    order of [allowed_fields]. *)
Definition update_fields (u : UpdateData) : list string :=
  key_if (up_first_name u) "first_name" ++ key_if (up_last_name u) "last_name"
  ++ key_if (up_display_name u) "display_name" ++ key_if (up_email u) "email"
  ++ key_if (up_roles u) "roles" ++ key_if (up_primary_role u) "primary_role"
  ++ key_if (up_is_active u) "is_active" ++ key_if (up_email_verified u) "email_verified"
  ++ key_if (up_mfa_enabled u) "mfa_enabled" ++ key_if (up_metadata u) "metadata".

(** The [user_data] dictionary built from a row:
    ["display_name": user_model.display_name or user_model.username];
    the ISO rendering of the two timestamps is not modelled. *)
Definition user_data_of (user_model : UserModel) : UserModel :=
  mkUser (id user_model) (username user_model) (email user_model)
    (first_name user_model) (last_name user_model)
    (Some (match display_name user_model with
           | Some d => if String.eqb d "" then username user_model else d
           | None => username user_model
           end))
    (roles user_model) (primary_role user_model) (is_active user_model)
    (email_verified user_model) (mfa_enabled user_model) (password_hash user_model)
    (failed_login_attempts user_model) (locked_until user_model) (last_login user_model)
    (created_at user_model) (updated_at user_model) (metadata user_model).

(** ** Helper methods *)

(** The test of the loop in [_invalidate_user_cache]. *)
Definition cache_key_matches (user_id key : string) : bool :=
  startswith key ("user_id:" +:+ user_id) || endswith key (":" +:+ user_id).

(** [_invalidate_user_cache]: collect the matching keys, then delete
    each of them. *)
Definition invalidate (user_id : string) (cache : gmap string CacheEntry)
  : gmap string CacheEntry :=
  let keys_to_remove :=
    List.filter (cache_key_matches user_id) (List.map fst (map_to_list cache)) in
  foldr delete cache keys_to_remove.

Definition _invalidate_user_cache (user_id : string) : Svc unit :=
  modify (set_cache (invalidate user_id)).

(** [_log_auth_event]: one more row in the audit table. *)
Definition _log_auth_event (user_id : option string) (event : string) (ok : bool)
  (meta : list (string * json)) (now : Z) : Svc unit :=
  modify (fun s => mkState (users s)
                     (audit_log s ++ [mkAudit user_id event ok meta now])
                     (_user_cache s) (metrics s)).

(** The cache probe that opens [get_user_by_id] and
    [get_user_by_username]: an entry is used while [expires > now]. *)
Definition cache_probe (cache_key : string) (now : Z) : Svc (option UserModel) :=
  gets (fun s => match _user_cache s !! cache_key with
                 | Some cached_data =>
                     if expires cached_data >? now then Some (user cached_data) else None
                 | None => None
                 end).

(** The part of both getters after a cache miss: query, build
    [user_data], cache it under [cache_key]. *)
Definition load_user (cache_key : string) (p : UserModel -> bool) (now : Z)
  : Svc (option UserModel) :=
  rows <- select_where p ;;
  user_model <- lift (scalar_one_or_none rows) ;;
  match user_model with
  | None => ret None
  | Some user_model =>
      let user_data := user_data_of user_model in
      modify (set_cache (insert cache_key (mkEntry user_data (now + _cache_ttl)))) ;;
      ret (Some user_data)
  end.

Definition get_user_by_id (user_id : string) (now : Z) : Svc (option UserModel) :=
  try_ (let cache_key := "user_id:" +:+ user_id in
        hit <- cache_probe cache_key now ;;
        match hit with
        | Some user_data => ret (Some user_data)
        | None => load_user cache_key (by_id user_id) now
        end)
       (fun _ => ret None).

Definition get_user_by_username (name : string) (now : Z) : Svc (option UserModel) :=
  try_ (let cache_key := "username:" +:+ name in
        hit <- cache_probe cache_key now ;;
        match hit with
        | Some user_data => ret (Some user_data)
        | None => load_user cache_key (by_username name) now
        end)
       (fun _ => ret None).

Section Operations.

Context {bcrypt : Bcrypt} (config : AuthServiceConfig).

Definition _verify_password (password hash : string) : bool :=
  match checkpw password hash with
  | Some b => b
  | None => false
  end.

(** [_hash_password]; [salt] is the value of [bcrypt.gensalt()]. *)
Definition _hash_password (password salt : string) : outcome string :=
  match hashpw password salt with
  | Some h => Return h
  | None => Raise (Exception "ValueError")
  end.

Definition verify_password (user_id password : string) (now : Z) : Svc bool :=
  try_ (user <- get_user_by_id user_id now ;;
        match user with
        | None => ret false
        | Some user => ret (_verify_password password (password_hash user))
        end)
       (fun _ => ret false).

(** ** Security management *)

Definition _handle_failed_login (user : UserModel) (now : Z) : Svc unit :=
  try_ (let user_id := id user in
        let failed_attempts := failed_login_attempts user + 1 in
        let locked :=
          if failed_attempts >=? max_failed_attempts config
          then Some (now + lockout_duration config) else None in
        update_where (by_id user_id) (values_attempts failed_attempts locked now) ;;
        _invalidate_user_cache user_id ;;
        modify (set_metrics (fun m =>
          mkMetrics (total_users m) (active_users m)
            (match locked with Some _ => locked_users m + 1 | None => locked_users m end)
            (failed_attempts_today m + 1) (successful_logins_today m))))
       (fun _ => ret tt).

Definition _reset_failed_attempts (user_id : string) (now : Z) : Svc unit :=
  try_ (update_where (by_id user_id) (values_attempts 0 None now) ;;
        _invalidate_user_cache user_id)
       (fun _ => ret tt).

Definition _update_last_login (user_id : string) (now : Z) : Svc unit :=
  try_ (update_where (by_id user_id) (values_last_login now) ;;
        _invalidate_user_cache user_id)
       (fun _ => ret tt).

Definition update_last_login (user_id : string) (now : Z) : Svc unit :=
  _update_last_login user_id now.

(** ** Authentication *)

Definition is_locked_at (user : UserModel) (now : Z) : bool :=
  match locked_until user with
  | Some t => t >? now
  | None => false
  end.

Definition authenticate_user (name password : string) (now : Z)
  : Svc (option UserModel) :=
  try_ (user <- get_user_by_username name now ;;
        match user with
        | None =>
            _log_auth_event None "login_failed" false
              [("reason", JStr "user_not_found"); ("username", JStr name)] now ;;
            ret None
        | Some user =>
            if negb (is_active user) then
              _log_auth_event (Some (id user)) "login_failed" false
                [("reason", JStr "account_inactive")] now ;;
              ret None
            else if is_locked_at user now then
              _log_auth_event (Some (id user)) "login_failed" false
                [("reason", JStr "account_locked")] now ;;
              ret None
            else if negb (_verify_password password (password_hash user)) then
              _handle_failed_login user now ;;
              _log_auth_event (Some (id user)) "login_failed" false
                [("reason", JStr "invalid_password")] now ;;
              ret None
            else
              _reset_failed_attempts (id user) now ;;
              _update_last_login (id user) now ;;
              _log_auth_event (Some (id user)) "login_success" true [] now ;;
              modify (set_metrics (fun m =>
                mkMetrics (total_users m) (active_users m) (locked_users m)
                  (failed_attempts_today m) (successful_logins_today m + 1))) ;;
              ret (Some user)
        end)
       (fun _ => ret None).

(** ** User management *)

(** [create_user]; [user_id] is the value of [secrets.token_urlsafe(16)]
    and [salt] that of [bcrypt.gensalt()]. *)
Definition create_user (user_data : CreateUserData) (user_id salt : string) (now : Z)
  : Svc (option string) :=
  try_ (match cu_username user_data, cu_email user_data, cu_password user_data with
        | Some name, Some mail, Some password =>
            existing_user <- get_user_by_username name now ;;
            match existing_user with
            | Some _ => raise (Exception "ValueError")
            | None =>
                hash <- lift (_hash_password password salt) ;;
                let user_model :=
                  mkUser user_id name mail
                    (cu_first_name user_data) (cu_last_name user_data)
                    (cu_display_name user_data)
                    (default ["user"] (cu_roles user_data))
                    (default "user" (cu_primary_role user_data))
                    (default true (cu_is_active user_data))
                    (default false (cu_email_verified user_data))
                    (default false (cu_mfa_enabled user_data))
                    hash 0 None None now None
                    (default [] (cu_metadata user_data)) in
                modify (set_users (fun rows => rows ++ [user_model])) ;;
                _log_auth_event (Some user_id) "user_created" true
                  [("username", JStr name)] now ;;
                modify (set_metrics (fun m =>
                  mkMetrics (total_users m + 1)
                    (if default true (cu_is_active user_data)
                     then active_users m + 1 else active_users m)
                    (locked_users m) (failed_attempts_today m)
                    (successful_logins_today m))) ;;
                ret (Some user_id)
            end
        | _, _, _ => raise (Exception "ValueError")
        end)
       (fun _ => ret None).

Definition update_user (user_id : string) (update_data : UpdateData) (now : Z)
  : Svc (option UserModel) :=
  try_ (match update_fields update_data with
        | [] => ret None
        | fields =>
            rows <- select_where (by_id user_id) ;;
            updated_user <-
              lift (scalar_one_or_none (List.map (values_update update_data now) rows)) ;;
            match updated_user with
            | None => ret None
            | Some _ =>
                update_where (by_id user_id) (values_update update_data now) ;;
                _invalidate_user_cache user_id ;;
                _log_auth_event (Some user_id) "user_updated" true
                  [("fields", JArr (List.map JStr (fields ++ ["updated_at"])))] now ;;
                get_user_by_id user_id now
            end
        end)
       (fun _ => ret None).

Definition change_password (user_id new_password salt : string) (now : Z) : Svc bool :=
  try_ (hash <- lift (_hash_password new_password salt) ;;
        rowcount <- update_where (by_id user_id) (values_password hash now) ;;
        if (0 <? rowcount)%nat then
          _invalidate_user_cache user_id ;;
          _log_auth_event (Some user_id) "password_changed" true [] now ;;
          ret true
        else ret false)
       (fun _ => ret false).

Definition delete_user (user_id : string) (now : Z) : Svc bool :=
  try_ (rowcount <- delete_where (by_id user_id) ;;
        if (0 <? rowcount)%nat then
          _invalidate_user_cache user_id ;;
          _log_auth_event (Some user_id) "user_deleted" true [] now ;;
          modify (set_metrics (fun m =>
            mkMetrics (total_users m - 1) (active_users m) (locked_users m)
              (failed_attempts_today m) (successful_logins_today m))) ;;
          ret true
        else ret false)
       (fun _ => ret false).

(** ** Bootstrap *)

Definition admin_data : CreateUserData :=
  mkCreate (Some "admin") (Some "admin@reusable-iam.local") (Some "admin123")
    (Some "System") (Some "Administrator") (Some "System Administrator")
    (Some ["admin"; "user"]) (Some "admin") (Some true) (Some true) None None.

Definition _create_default_admin (user_id salt : string) (now : Z) : Svc unit :=
  try_ (admin_user <- get_user_by_username "admin" now ;;
        match admin_user with
        | Some _ => ret tt
        | None =>
            _ <- create_user admin_data user_id salt now ;;
            ret tt
        end)
       (fun _ => ret tt).

End Operations.

End UserService.

(** * The authentication service ([authentication-service/main.py]) *)

Module AuthenticationService.

Record LoginRequest : Type := mkLoginRequest {
  username : string;
  password : string
}.

(** [d.name] for a [dict] [d]: a dictionary has keys, no attributes, so
    the access raises [AttributeError]. *)
Definition dict_getattr {A : Type} (d : UserService.UserModel) (name : string)
  : UserService.Svc A :=
  UserService.raise
    (Exception ("'dict' object has no attribute '" +:+ name +:+ "'")).

(** [try: m  except HTTPException: raise  except Exception: h] *)
Definition try_reraise {A : Type} (m : UserService.Svc A) (h : UserService.Svc A)
  : UserService.Svc A :=
  fun s => match m s with
           | (Raise (Exception _), s') => h s'
           | r => r
           end.

Section Main.

Context {bcrypt : Bcrypt} (config : UserService.AuthServiceConfig).

(** Lines 172-195 of [login]: the two tokens, the session, the last
    login and the [LoginResponse].  [token_service] and
    [session_service] are not among the sources. *)
Variable issue_tokens : UserService.UserModel -> Z -> UserService.Svc json.

Import UserService.

Definition login (request : LoginRequest) (now : Z) : Svc json :=
  try_reraise
    (user <- authenticate_user config (AuthenticationService.username request)
               (AuthenticationService.password request) now ;;
     match user with
     | None => raise (HTTPException 401 "Invalid credentials")
     | Some user =>
         active <- dict_getattr user "is_active" ;;
         if negb active then raise (HTTPException 403 "Account is inactive")
         else
           locked <- dict_getattr user "is_locked" ;;
           if (locked : bool) then raise (HTTPException 423 "Account is locked")
           else issue_tokens user now
     end)
    (raise (HTTPException 500 "Login failed")).

End Main.

(** [http_exception_handler]; [now_iso] is
    [datetime.utcnow().isoformat()]. *)
Definition http_exception_handler (code : Z) (detail now_iso : string) : Response :=
  JSONResponse code
    (JObj [("error", JObj [("code", JNum code);
                           ("message", JStr detail);
                           ("timestamp", JStr now_iso)])]).

Definition general_exception_handler (now_iso : string) : Response :=
  JSONResponse 500
    (JObj [("error", JObj [("code", JNum 500);
                           ("message", JStr "Internal server error");
                           ("timestamp", JStr now_iso)])]).

(** What the client receives for an endpoint outcome. *)
Definition respond (o : outcome json) (now_iso : string) : Response :=
  match o with
  | Return body => JSONResponse 200 body
  | Raise (HTTPException c d) => http_exception_handler c d now_iso
  | Raise (Exception _) => general_exception_handler now_iso
  end.

End AuthenticationService.

(** * The authorization service ([authorization-service/main.py]) *)

Module AuthorizationService.

(** Modelled from the spec: the request and response models of
    [src/models/authz_models.py], which is not among the sources, with
    the fields [main.py] reads and fills. *)
Inductive PolicyEffect : Type := PERMIT | DENY | INDETERMINATE.

Record AuthorizationRequest : Type := mkRequest {
  user_id : string;
  resource_id : string;
  action : string;
  request_id : string
}.

Record AuthorizationDecision : Type := mkDecision {
  effect : PolicyEffect;
  reason : string;
  attributes_used : list string;
  evaluation_time_ms : Z;
  cache_hit : bool;
  obligations : list json;
  advice : list string;
  timestamp : string
}.

Record AuthorizationResponse : Type := mkResponse {
  success : bool;
  decision : AuthorizationDecision;
  response_request_id : string
}.

Section Main.

(** [authz_app.authorization_engine.authorize]; the engine is not among
    the sources. *)
Variable authorization_engine_authorize :
  AuthorizationRequest -> outcome AuthorizationResponse.

Definition authorize (request : AuthorizationRequest) (now_iso : string)
  : outcome AuthorizationResponse :=
  try_except
    (obind (authorization_engine_authorize request) (fun result => Return result))
    (fun e =>
       Return (mkResponse false
                 (mkDecision DENY ("Authorization error: " +:+ str_exn e) [] 0 false []
                    ["Check system logs for details"] now_iso)
                 (request_id request))).

End Main.

Definition http_exception_handler (code : Z) (detail now_iso : string) : Response :=
  JSONResponse code
    (JObj [("error", JObj [("code", JNum code);
                           ("message", JStr detail);
                           ("timestamp", JStr now_iso)])]).

Definition general_exception_handler (now_iso : string) : Response :=
  JSONResponse 500
    (JObj [("error", JObj [("code", JNum 500);
                           ("message", JStr "Internal server error");
                           ("timestamp", JStr now_iso)])]).

(** What the client receives for the outcome of an endpoint with a
    response model: the model with status 200, or an error response. *)
Inductive reply (A : Type) : Type :=
| Body (status : Z) (model : A)
| Error (response : Response).
Arguments Body {A} status model.
Arguments Error {A} response.

Definition respond {A : Type} (o : outcome A) (now_iso : string) : reply A :=
  match o with
  | Return model => Body 200 model
  | Raise (HTTPException c d) => Error (http_exception_handler c d now_iso)
  | Raise (Exception _) => Error (general_exception_handler now_iso)
  end.

End AuthorizationService.

(** * The API gateway ([api-gateway/main.py]) *)

Module ApiGateway.

(** The parts of a [fastapi.Request] the handlers read. *)
Record Request : Type := mkRequest {
  method : string;
  url_path : string;
  headers : list (string * string);
  query_params : list (string * string);
  body : string
}.

(** The keyword arguments of [gateway_service.forward_request]. *)
Record Forward : Type := mkForward {
  service_name : string;
  path : string;
  fwd_method : string;
  fwd_headers : list (string * string);
  fwd_query_params : option (list (string * string));
  fwd_body : option string
}.

(** The result of [authenticate_request] and of [check_authorization]. *)
Record AuthResult : Type := mkAuthResult {
  success : bool;
  auth_user_id : string;
  error_message : string
}.

(** The collaborators of the handlers, none of which is among the
    sources: [rate_limiting.check_rate_limit],
    [auth_middleware.authenticate_request],
    [auth_middleware.check_authorization] (user, resource, action, path
    of the context), [gateway_service.forward_request], and the reading
    of [time.time()]. *)
Record Collaborators : Type := mkCollaborators {
  check_rate_limit : Request -> outcome unit;
  authenticate_request : Request -> outcome AuthResult;
  check_authorization : string -> string -> string -> string -> outcome AuthResult;
  forward_request : Forward -> outcome Response;
  time_time : Z
}.

Section Handlers.

Variable app : Collaborators.

Definition unavailable {A : Type} (detail : string) : outcome A :=
  Raise (HTTPException 500 detail).

(** The authentication check that opens the protected handlers. *)
Definition require_authentication (request : Request) : outcome AuthResult :=
  obind (authenticate_request app request) (fun auth_result =>
  if negb (success auth_result)
  then Raise (HTTPException 401 (error_message auth_result))
  else Return auth_result).

(** The authentication and admin check of the policy and audit
    handlers. *)
Definition require_admin (request : Request) (resource action ctx_path : string)
  : outcome unit :=
  obind (require_authentication request) (fun auth_result =>
  obind (check_authorization app (auth_user_id auth_result) resource action ctx_path)
    (fun authz_result =>
  if negb (success authz_result)
  then Raise (HTTPException 403 "Admin access required")
  else Return tt)).

(** ** Routes to the authentication service *)

Definition login (request : Request) : outcome Response :=
  try_except
    (forward_request app
       (mkForward "authentication" "/auth/login" "POST" (headers request) None
          (Some (body request))))
    (fun _ => unavailable "Authentication service unavailable").

Definition logout (request : Request) : outcome Response :=
  try_reraise_http
    (obind (require_authentication request) (fun _ =>
     forward_request app
       (mkForward "authentication" "/auth/logout" "POST" (headers request) None None)))
    (fun _ => unavailable "Authentication service unavailable").

Definition refresh_token (request : Request) : outcome Response :=
  try_except
    (forward_request app
       (mkForward "authentication" "/auth/refresh" "POST" (headers request) None
          (Some (body request))))
    (fun _ => unavailable "Authentication service unavailable").

Definition validate_token (request : Request) : outcome Response :=
  try_except
    (forward_request app
       (mkForward "authentication" "/auth/validate" "GET" (headers request) None None))
    (fun _ => unavailable "Authentication service unavailable").

Definition get_current_user (request : Request) : outcome Response :=
  try_reraise_http
    (obind (require_authentication request) (fun _ =>
     forward_request app
       (mkForward "authentication" "/users/me" "GET" (headers request) None None)))
    (fun _ => unavailable "Authentication service unavailable").

Definition update_current_user (request : Request) : outcome Response :=
  try_reraise_http
    (obind (require_authentication request) (fun _ =>
     forward_request app
       (mkForward "authentication" "/users/me" "PUT" (headers request) None
          (Some (body request)))))
    (fun _ => unavailable "Authentication service unavailable").

(** ** Routes to the authorization service *)

(** The dictionary [authorize] returns when forwarding failed. *)
Definition development_fallback : json :=
  JObj [("success", JBool true);
        ("decision",
         JObj [("effect", JStr "permit");
               ("reason",
                JStr "Authorization service unavailable - using development fallback");
               ("attributes_used", JArr [JStr "fallback"]);
               ("evaluation_time_ms", JNum 0);
               ("cache_hit", JBool false);
               ("obligations", JArr []);
               ("advice",
                JArr [JStr "Using development mode fallback due to service unavailable"]);
               ("timestamp", JNum (time_time app))]);
        ("request_id", JStr ("gateway_fallback_" +:+ pretty (time_time app)))].

Definition authorize (request : Request) : outcome Response :=
  try_reraise_http
    (obind (check_rate_limit app request) (fun _ =>
     forward_request app
       (mkForward "authorization" "/authorize" "POST" (headers request) None
          (Some (body request)))))
    (fun _ => Return (JSONResponse 200 development_fallback)).

Definition authorize_bulk (request : Request) : outcome Response :=
  try_reraise_http
    (obind (check_rate_limit app request) (fun _ =>
     forward_request app
       (mkForward "authorization" "/authorize/bulk" "POST" (headers request) None
          (Some (body request)))))
    (fun _ => unavailable "Authorization service unavailable").

Definition authorize_batch_optimized (request : Request) : outcome Response :=
  try_reraise_http
    (obind (check_rate_limit app request) (fun _ =>
     forward_request app
       (mkForward "authorization" "/authorize/batch-optimized" "POST" (headers request)
          None (Some (body request)))))
    (fun _ => unavailable "Authorization service unavailable").

Definition list_policies (request : Request) : outcome Response :=
  try_reraise_http
    (obind (require_admin request "policies" "read" "/api/v1/authz/policies") (fun _ =>
     forward_request app
       (mkForward "authorization" "/policies" "GET" (headers request)
          (Some (query_params request)) None)))
    (fun _ => unavailable "Authorization service unavailable").

Definition create_policy (request : Request) : outcome Response :=
  try_reraise_http
    (obind (require_admin request "policies" "create" "/api/v1/authz/policies") (fun _ =>
     forward_request app
       (mkForward "authorization" "/policies" "POST" (headers request) None
          (Some (body request)))))
    (fun _ => unavailable "Authorization service unavailable").

Definition query_audit_log (request : Request) : outcome Response :=
  try_reraise_http
    (obind (require_admin request "audit" "read" "/api/v1/authz/audit/decisions")
       (fun _ =>
     forward_request app
       (mkForward "authorization" "/audit/decisions" "GET" (headers request)
          (Some (query_params request)) None)))
    (fun _ => unavailable "Authorization service unavailable").

Definition get_authorization_status (request : Request) : outcome Response :=
  try_except
    (forward_request app
       (mkForward "authorization" "/status" "GET" (headers request) None None))
    (fun _ => unavailable "Authorization service unavailable").

(** ** The generic proxy route [/api/v1/{path:path}] *)

(** The first lines of [proxy_request]: the target service, if any, and
    the path to ask it for. *)
Definition proxy_target (path : string) : option string * string :=
  if startswith path "auth/" || startswith path "users/" then
    (Some "authentication", path)
  else if startswith path "authz/" || startswith path "policies/" then
    (Some "authorization", replace_first "authz/" "" path)
  else (None, path).

Definition has_body (m : string) : bool :=
  String.eqb m "POST" || String.eqb m "PUT" || String.eqb m "PATCH".

Definition proxy_request (request : Request) (path : string) : outcome Response :=
  try_reraise_http
    (let '(service_name, service_path) := proxy_target path in
     match service_name with
     | None => Raise (HTTPException 404 "Service not found")
     | Some service_name =>
         let body := if has_body (method request) then Some (body request) else None in
         forward_request app
           (mkForward service_name ("/" +:+ service_path) (method request)
              (headers request) (Some (query_params request)) body)
     end)
    (fun _ => unavailable "Service unavailable").

(** ** Error handling *)

Definition http_exception_handler (request : Request) (code : Z) (detail : string)
  : Response :=
  JSONResponse code
    (JObj [("error", JObj [("code", JNum code);
                           ("message", JStr detail);
                           ("path", JStr (url_path request));
                           ("timestamp", JNum (time_time app))])]).

Definition general_exception_handler (request : Request) : Response :=
  JSONResponse 500
    (JObj [("error", JObj [("code", JNum 500);
                           ("message", JStr "Gateway internal error");
                           ("path", JStr (url_path request));
                           ("timestamp", JNum (time_time app))])]).

(** What the client receives for a handler outcome. *)
Definition respond (request : Request) (o : outcome Response) : Response :=
  match o with
  | Return response => response
  | Raise (HTTPException c d) => http_exception_handler request c d
  | Raise (Exception _) => general_exception_handler request
  end.

(** ** The route table *)

Inductive Route : Type :=
| PostAuthLogin | PostAuthLogout | PostAuthRefresh | GetAuthValidate
| GetUsersMe | PutUsersMe
| PostAuthzAuthorize | PostAuthzAuthorizeBulk | PostAuthzAuthorizeBatchOptimized
| GetAuthzPolicies | PostAuthzPolicies | GetAuthzAuditDecisions | GetAuthzStatus
| Proxy (path : string).

Definition handler (r : Route) : Request -> outcome Response :=
  match r with
  | PostAuthLogin => login
  | PostAuthLogout => logout
  | PostAuthRefresh => refresh_token
  | GetAuthValidate => validate_token
  | GetUsersMe => get_current_user
  | PutUsersMe => update_current_user
  | PostAuthzAuthorize => authorize
  | PostAuthzAuthorizeBulk => authorize_bulk
  | PostAuthzAuthorizeBatchOptimized => authorize_batch_optimized
  | GetAuthzPolicies => list_policies
  | PostAuthzPolicies => create_policy
  | GetAuthzAuditDecisions => query_audit_log
  | GetAuthzStatus => get_authorization_status
  | Proxy path => fun request => proxy_request request path
  end.

Definition serve (r : Route) (request : Request) : Response :=
  respond request (handler r request).

End Handlers.

End ApiGateway.

(** * More of the gateway: the management endpoints *)

Module GatewayManagement.

Section Handlers.

(** [gateway_service.check_service_health]; the gateway service is not
    among the sources. *)
Variable check_service_health : string -> outcome bool.

(** The reading of [time.time()]. *)
Variable time_time : Z.

(** One of the two inner [try] blocks of [gateway_health_check]. *)
Definition service_health (service : string) : outcome string :=
  try_except
    (obind (check_service_health service) (fun healthy =>
     Return (if healthy then "healthy" else "unhealthy")))
    (fun _ => Return "unhealthy").

Definition gateway_health_check : outcome Response :=
  try_except
    (obind (service_health "authentication") (fun authentication =>
     obind (service_health "authorization") (fun authorization =>
     let services_health :=
       [("authentication", authentication); ("authorization", authorization)] in
     let overall_status :=
       if forallb (fun status => String.eqb status "healthy")
            (List.map snd services_health)
       then "healthy" else "unhealthy" in
     Return (JSONResponse 200
               (JObj [("status", JStr overall_status);
                      ("service", JStr "api-gateway");
                      ("version", JStr "1.0.0");
                      ("timestamp", JNum time_time);
                      ("services",
                       JObj (List.map (fun kv => (kv.1, JStr kv.2)) services_health))])))))
    (fun e =>
       Return (JSONResponse 503
                 (JObj [("status", JStr "unhealthy");
                        ("service", JStr "api-gateway");
                        ("error", JStr (str_exn e))]))).

End Handlers.

End GatewayManagement.

(** * More of the authorization service: bulk, audit, health *)

Module AuthorizationEndpoints.
Import AuthorizationService.

(** Modelled from the spec: the bulk models of
    [src/models/authz_models.py], with the fields [main.py] reads and
    fills. *)
Record BulkAuthorizationRequest : Type := mkBulkRequest {
  bulk_user_id : string;
  requests : list AuthorizationRequest
}.

Record BulkAuthorizationResponse : Type := mkBulkResponse {
  results : list AuthorizationResponse;
  summary : list (string * Z)
}.

(** [sum(1 for r in results if r.decision.effect == e)] *)
Definition count_effect (e : PolicyEffect) (rs : list AuthorizationResponse) : Z :=
  Z.of_nat (List.length
              (List.filter (fun r => match effect (decision r), e with
                                     | PERMIT, PERMIT | DENY, DENY
                                     | INDETERMINATE, INDETERMINATE => true
                                     | _, _ => false
                                     end) rs)).

(** The response both bulk endpoints build from the engine's results. *)
Definition bulk_response (rs : list AuthorizationResponse) : BulkAuthorizationResponse :=
  let permitted := count_effect PERMIT rs in
  let denied := count_effect DENY rs in
  let errors := count_effect INDETERMINATE rs in
  mkBulkResponse rs
    [("total", Z.of_nat (List.length rs)); ("permitted", permitted);
     ("denied", denied); ("errors", errors)].

Section Main.

(** The engine, the policy service, the audit service and the database
    manager; none of them is among the sources. *)
Variable engine_authorize_bulk :
  BulkAuthorizationRequest -> outcome (list AuthorizationResponse).
Variable engine_authorize_batch_optimized :
  BulkAuthorizationRequest -> outcome (list AuthorizationResponse).
Variable audit_service_query_decisions : list (string * json) -> outcome (list json).
Variable db_manager_health_check : outcome bool.
Variable policy_service_health_check : option (outcome bool).
Variable authorization_engine_health_check : option (outcome bool).

Definition authorize_bulk (request : BulkAuthorizationRequest)
  : outcome BulkAuthorizationResponse :=
  try_except
    (obind (engine_authorize_bulk request) (fun rs => Return (bulk_response rs)))
    (fun e => Raise (HTTPException 500 ("Bulk authorization failed: " +:+ str_exn e))).

Definition authorize_batch_optimized (request : BulkAuthorizationRequest)
  : outcome BulkAuthorizationResponse :=
  try_except
    (obind (engine_authorize_batch_optimized request)
       (fun rs => Return (bulk_response rs)))
    (fun e => Raise (HTTPException 500 ("Batch authorization failed: " +:+ str_exn e))).

(** The query parameters of [GET /audit/decisions]. *)
Record AuditQuery : Type := mkAuditQuery {
  start_time : option string;
  end_time : option string;
  q_user_id : option string;
  q_resource_id : option string;
  q_action : option string;
  q_decision : option string;
  limit : Z;
  offset : Z
}.

(** [if v: filters[k] = v] *)
Definition filter_if (k : string) (v : option string) : list (string * json) :=
  match v with
  | Some s => if String.eqb s "" then [] else [(k, JStr s)]
  | None => []
  end.

Definition audit_filters (q : AuditQuery) : list (string * json) :=
  filter_if "start_time" (start_time q) ++ filter_if "end_time" (end_time q)
  ++ filter_if "user_id" (q_user_id q) ++ filter_if "resource_id" (q_resource_id q)
  ++ filter_if "action" (q_action q) ++ filter_if "decision" (q_decision q)
  ++ [("limit", JNum (limit q)); ("offset", JNum (offset q))].

Definition query_audit_log (q : AuditQuery) : outcome json :=
  try_except
    (let filters := audit_filters q in
     obind (audit_service_query_decisions filters) (fun decisions =>
     Return (JObj [("decisions", JArr decisions);
                   ("total", JNum (Z.of_nat (List.length decisions)));
                   ("limit", JNum (limit q));
                   ("offset", JNum (offset q))])))
    (fun e => Raise (HTTPException 500 ("Failed to query audit log: " +:+ str_exn e))).

(** [await service.health_check() if service else False] *)
Definition health_of (service : option (outcome bool)) : outcome bool :=
  match service with
  | Some check => check
  | None => Return false
  end.

Definition health_word (healthy : bool) : string :=
  if healthy then "healthy" else "unhealthy".

(** [health_check]; [now_iso] is [datetime.utcnow().isoformat()]. *)
Definition health_check (now_iso : string) : outcome Response :=
  try_except
    (obind db_manager_health_check (fun db_healthy =>
     obind (health_of policy_service_health_check) (fun policy_healthy =>
     obind (health_of authorization_engine_health_check) (fun engine_healthy =>
     Return (JSONResponse 200
               (JObj [("status",
                       JStr (health_word (db_healthy && policy_healthy && engine_healthy)));
                      ("service", JStr "authorization-service");
                      ("version", JStr "1.0.0");
                      ("timestamp", JStr now_iso);
                      ("checks",
                       JObj [("database", JStr (health_word db_healthy));
                             ("policy_service", JStr (health_word policy_healthy));
                             ("authorization_engine",
                              JStr (health_word engine_healthy))])]))))))
    (fun e =>
       Return (JSONResponse 503
                 (JObj [("status", JStr "unhealthy");
                        ("service", JStr "authorization-service");
                        ("error", JStr (str_exn e))]))).

End Main.

End AuthorizationEndpoints.

(** * More of the gateway: which handler serves a request *)

Module GatewayRouting.
Import ApiGateway.

(** The handlers with a path of their own, in the order in which
    [main.py] registers them. *)
Definition fixed_routes : list (string * string * Route) :=
  [("POST", "/api/v1/auth/login", PostAuthLogin);
   ("POST", "/api/v1/auth/logout", PostAuthLogout);
   ("POST", "/api/v1/auth/refresh", PostAuthRefresh);
   ("GET", "/api/v1/auth/validate", GetAuthValidate);
   ("GET", "/api/v1/users/me", GetUsersMe);
   ("PUT", "/api/v1/users/me", PutUsersMe);
   ("POST", "/api/v1/authz/authorize", PostAuthzAuthorize);
   ("POST", "/api/v1/authz/authorize/bulk", PostAuthzAuthorizeBulk);
   ("POST", "/api/v1/authz/authorize/batch-optimized",
    PostAuthzAuthorizeBatchOptimized);
   ("GET", "/api/v1/authz/policies", GetAuthzPolicies);
   ("POST", "/api/v1/authz/policies", PostAuthzPolicies);
   ("GET", "/api/v1/authz/audit/decisions", GetAuthzAuditDecisions);
   ("GET", "/api/v1/authz/status", GetAuthzStatus)].

(** [methods=["GET", "POST", "PUT", "DELETE", "PATCH"]] of the proxy
    route. *)
Definition proxy_methods : list string := ["GET"; "POST"; "PUT"; "DELETE"; "PATCH"].

Fixpoint first_match (m p : string) (routes : list (string * string * Route))
  : option Route :=
  match routes with
  | [] => None
  | (m', p', r) :: rest =>
      if String.eqb m m' && String.eqb p p' then Some r else first_match m p rest
  end.

(** The route that serves method [m] on path [p]: the first registered
    one that matches both; [/api/v1/{path:path}], registered last,
    matches every path under [/api/v1/]. *)
Definition dispatch (m p : string) : option Route :=
  match first_match m p fixed_routes with
  | Some r => Some r
  | None =>
      if existsb (String.eqb m) proxy_methods && startswith p "/api/v1/"
      then Some (Proxy (drop_chars 8 p))
      else None
  end.

End GatewayRouting.

(** * More of the authentication service: the other endpoints *)

Module AuthenticationEndpoints.

(** Modelled from the spec: [UserProfile] of [src/models/auth_models.py],
    which is not among the sources, with the attribute [main.py]
    reads. *)
Record UserProfile : Type := mkProfile {
  id : string
}.

(** Modelled from the spec: [TokenValidationResponse] of
    [src/models/auth_models.py], with the fields [validate_token]
    fills; the ones it leaves out are [None]. *)
Record TokenValidationResponse : Type := mkValidation {
  valid : bool;
  user_id : option string;
  expires_at : option string;
  scopes : option json;
  error_message : option string
}.

(** The calls that change something in [token_service] and
    [session_service], neither of which is among the sources. *)
Inductive Call : Type :=
| CreateAccessToken (user_id : string)
| CreateRefreshToken (user_id : string)
| RevokeToken (token : string)
| EndSessionByUser (user_id : string)
| EndAllUserSessions (user_id : string)
| EndSession (session_id user_id : string).

(** What those services and [auth_middleware] answer. *)
Record Services : Type := mkServices {
  authenticate_jwt : string -> outcome (option UserProfile);
  validate_refresh_token : string -> outcome (option UserProfile);
  decode_token : string -> outcome (list (string * json));
  create_access_token : UserProfile -> outcome string;
  create_refresh_token : UserProfile -> outcome string;
  revoke_token : string -> outcome unit;
  end_session_by_user : string -> outcome unit;
  end_all_user_sessions : string -> outcome Z;
  (** [session_service.end_session] *)
  end_user_session : string -> string -> outcome bool;
  get_user_sessions : string -> outcome json;
  (** [datetime.fromtimestamp(x).isoformat()] *)
  fromtimestamp_isoformat : json -> outcome string;
  (** [config.jwt] *)
  enable_refresh : bool;
  expiration_minutes : Z
}.

(** The state the endpoints work on: that of the user service, and the
    calls made so far, oldest first. *)
Record World : Type := mkWorld {
  service : UserService.ServiceState;
  calls : list Call
}.

Definition Ep (A : Type) : Type := World -> outcome A * World.

Definition ret {A : Type} (a : A) : Ep A := fun w => (Return a, w).

Definition bind {A B : Type} (m : Ep A) (k : A -> Ep B) : Ep B :=
  fun w => match m w with
           | (Return a, w') => k a w'
           | (Raise e, w') => (Raise e, w')
           end.

Definition raise {A : Type} (e : exn) : Ep A := fun w => (Raise e, w).

(** An answer of a service that changes nothing. *)
Definition ask {A : Type} (o : outcome A) : Ep A := fun w => (o, w).

(** A call that may change something: it is on record whether it
    returns or raises. *)
Definition call {A : Type} (c : Call) (o : outcome A) : Ep A :=
  fun w => (o, mkWorld (service w) (calls w ++ [c])).

(** A method of the user service. *)
Definition user_service {A : Type} (m : UserService.Svc A) : Ep A :=
  fun w => let '(o, s) := m (service w) in (o, mkWorld s (calls w)).

(** [try: m  except HTTPException: raise  except Exception: h] *)
Definition try_reraise {A : Type} (m : Ep A) (h : string -> Ep A) : Ep A :=
  fun w => match m w with
           | (Raise (Exception msg), w') => h msg w'
           | r => r
           end.

(** [try: m  except Exception as e: h e] *)
Definition try_ {A : Type} (m : Ep A) (h : exn -> Ep A) : Ep A :=
  fun w => match m w with
           | (Raise e, w') => h e w'
           | r => r
           end.

Declare Scope ep_scope.
Delimit Scope ep_scope with ep.
Notation "x <- m ;; k" := (bind m (fun x => k))
  (at level 100, m at next level, right associativity) : ep_scope.
Notation "m ;; k" := (bind m (fun _ => k))
  (at level 100, right associativity) : ep_scope.
Open Scope ep_scope.

Section Main.

Context {bcrypt : Bcrypt}.
Variable app : Services.

(** ** Dependencies *)

(** [get_current_user]; [credentials] is the bearer token, if any. *)
Definition get_current_user (credentials : option string) : Ep (option UserProfile) :=
  match credentials with
  | None => ret None
  | Some token => try_ (ask (authenticate_jwt app token)) (fun _ => ret None)
  end.

Definition require_authentication (credentials : option string) : Ep UserProfile :=
  current_user <- get_current_user credentials ;;
  match current_user with
  | None => raise (HTTPException 401 "Authentication required")
  | Some current_user => ret current_user
  end.

(** ** Tokens *)

(** [logout]; the handler runs once both dependencies are resolved. *)
Definition logout (credentials : option string) : Ep json :=
  current_user <- require_authentication credentials ;;
  try_ (match credentials with
        | None => raise (Exception "'NoneType' object has no attribute 'credentials'")
        | Some token =>
            call (RevokeToken token) (revoke_token app token) ;;
            call (EndSessionByUser (id current_user))
              (end_session_by_user app (id current_user)) ;;
            ret (JObj [("message", JStr "Logged out successfully")])
        end)
       (fun _ => raise (HTTPException 500 "Logout failed")).

Definition json_option (o : option string) : json :=
  match o with
  | Some s => JStr s
  | None => JNull
  end.

Definition refresh_token (refresh : string) : Ep json :=
  try_reraise
    (user <- ask (validate_refresh_token app refresh) ;;
     match user with
     | None => raise (HTTPException 401 "Invalid refresh token")
     | Some user =>
         new_access_token <-
           call (CreateAccessToken (id user)) (create_access_token app user) ;;
         new_refresh_token <-
           (if enable_refresh app then
              token <- call (CreateRefreshToken (id user))
                         (create_refresh_token app user) ;;
              call (RevokeToken refresh) (revoke_token app refresh) ;;
              ret (Some token)
            else ret None) ;;
         ret (JObj [("access_token", JStr new_access_token);
                    ("refresh_token", json_option new_refresh_token);
                    ("token_type", JStr "Bearer");
                    ("expires_in", JNum (expiration_minutes app * 60))])
     end)
    (fun _ => raise (HTTPException 500 "Token refresh failed")).

Definition validate_token (credentials : option string) : Ep TokenValidationResponse :=
  try_ (match credentials with
        | None => ret (mkValidation false None None None None)
        | Some token =>
            user <- ask (authenticate_jwt app token) ;;
            match user with
            | None => ret (mkValidation false None None None None)
            | Some user =>
                token_info <- ask (decode_token app token) ;;
                expires <- ask (fromtimestamp_isoformat app
                                  (default (JNum 0) (assoc "exp" token_info))) ;;
                ret (mkValidation true (Some (id user)) (Some expires)
                       (Some (default (JArr []) (assoc "scopes" token_info))) None)
            end
        end)
       (fun e => ret (mkValidation false None None None (Some (str_exn e)))).

(** ** Users *)

Definition get_current_user_profile (credentials : option string) : Ep UserProfile :=
  require_authentication credentials.

Definition update_current_user_profile (credentials : option string)
  (update_data : UserService.UpdateData) (now : Z) : Ep UserService.UserModel :=
  current_user <- require_authentication credentials ;;
  try_reraise
    (updated_user <-
       user_service (UserService.update_user (id current_user) update_data now) ;;
     match updated_user with
     | None => raise (HTTPException 404 "User not found")
     | Some updated_user => ret updated_user
     end)
    (fun _ => raise (HTTPException 500 "Profile update failed")).

(** [change_password]; [salt] is the value of [bcrypt.gensalt()] for
    the new hash. *)
Definition change_password (credentials : option string)
  (current_password new_password salt : string) (now : Z) : Ep json :=
  current_user <- require_authentication credentials ;;
  try_reraise
    (is_valid <-
       user_service (UserService.verify_password (id current_user) current_password now) ;;
     if negb is_valid
     then raise (HTTPException 400 "Current password is incorrect")
     else
       success <-
         user_service
           (UserService.change_password (id current_user) new_password salt now) ;;
       if negb success
       then raise (HTTPException 500 "Password change failed")
       else
         call (EndAllUserSessions (id current_user))
           (end_all_user_sessions app (id current_user)) ;;
         ret (JObj [("message", JStr "Password changed successfully")]))
    (fun _ => raise (HTTPException 500 "Password change failed")).

(** ** Sessions *)

Definition get_current_sessions (credentials : option string) : Ep json :=
  current_user <- require_authentication credentials ;;
  try_ (sessions <- ask (get_user_sessions app (id current_user)) ;;
        ret (JObj [("sessions", sessions)]))
       (fun _ => raise (HTTPException 500 "Failed to get sessions")).

Definition end_session (credentials : option string) (session_id : string) : Ep json :=
  current_user <- require_authentication credentials ;;
  try_reraise
    (success <- call (EndSession session_id (id current_user))
                  (end_user_session app session_id (id current_user)) ;;
     if negb success
     then raise (HTTPException 404 "Session not found")
     else ret (JObj [("message", JStr "Session ended successfully")]))
    (fun _ => raise (HTTPException 500 "Failed to end session")).

Definition end_all_sessions (credentials : option string) : Ep json :=
  current_user <- require_authentication credentials ;;
  try_ (count <- call (EndAllUserSessions (id current_user))
                   (end_all_user_sessions app (id current_user)) ;;
        ret (JObj [("message",
                    JStr ("Ended " +:+ pretty count +:+ " sessions successfully"))]))
       (fun _ => raise (HTTPException 500 "Failed to end sessions")).

(** ** The two DELETE routes under [/sessions], in the order in which
    they are registered: [/sessions/{session_id}] matches any one
    segment, [/sessions/all] the segment [all]. *)
Inductive SessionRoute : Type :=
| ToEndSession (session_id : string)
| ToEndAllSessions.

Definition delete_session_routes : list (string -> option SessionRoute) :=
  [ (fun segment => if String.eqb segment "" then None else Some (ToEndSession segment));
    (fun segment => if String.eqb segment "all" then Some ToEndAllSessions else None) ].

Fixpoint first_route (segment : string) (routes : list (string -> option SessionRoute))
  : option SessionRoute :=
  match routes with
  | [] => None
  | route :: rest =>
      match route segment with
      | Some r => Some r
      | None => first_route segment rest
      end
  end.

(** The handler of [DELETE /sessions/<segment>]. *)
Definition delete_sessions (credentials : option string) (segment : string)
  : option (Ep json) :=
  match first_route segment delete_session_routes with
  | Some (ToEndSession session_id) => Some (end_session credentials session_id)
  | Some ToEndAllSessions => Some (end_all_sessions credentials)
  | None => None
  end.

End Main.

End AuthenticationEndpoints.

(** * The forwarder and the rate limiter, after the specification *)

Module GatewayService.
Import ApiGateway.

(** The upstream services as the forwarder finds them: which of them
    can be reached, whether the development fallback is configured,
    what a reachable upstream answers, and the body of the answer for
    one that is out of reach. *)
Record Upstreams : Type := mkUpstreams {
  reachable : string -> bool;
  fallback_enabled : bool;
  upstream_response : Forward -> Response;
  unavailable_content : json
}.

(** The call [authorize] makes: [POST /authorize] on the authorization
    service. *)
Definition is_authorize_call (f : Forward) : bool :=
  String.eqb (service_name f) "authorization"
  && String.eqb (path f) "/authorize"
  && String.eqb (fwd_method f) "POST".

(** Modelled from the spec: [gateway_service.forward_request], which is
    not among the sources.  The answer of a reachable upstream is
    returned as it is (section 4.3, step 4).  An upstream out of reach
    is surfaced to the caller as 503 (sections 4.3 and 7), but for the
    fail-open case of section 4.3: the authorize call, with the
    fallback configured.  [main.py] answers with the fallback from the
    [except Exception] branch of [authorize], so that case is handed to
    the handler as an exception that is no [HTTPException]. *)
Definition forward_request (u : Upstreams) (f : Forward) : outcome Response :=
  if reachable u (service_name f) then Return (upstream_response u f)
  else if fallback_enabled u && is_authorize_call f
       then Raise (Exception "upstream unreachable")
       else Return (JSONResponse 503 (unavailable_content u)).

End GatewayService.

Module RateLimiting.
Import ApiGateway.

(** Modelled from the spec: [rate_limiting.check_rate_limit], which is
    not among the sources.  The limiter allows or denies (section 4.4);
    a denial is a 429 (section 4.3, step 1). *)
Definition check_rate_limit (allow : Request -> bool) (request : Request)
  : outcome unit :=
  if allow request then Return tt
  else Raise (HTTPException 429 "Rate limit exceeded").

End RateLimiting.

(** * Vocabulary of the properties *)

(** ** A stand-in for bcrypt

    The concrete runs below need some [Bcrypt]; this one keeps the
    password readable in the hash and satisfies [BcryptSound]. *)

#[local] Instance plain_bcrypt : Bcrypt := {|
  hashpw p salt := Some ("$2b$" +:+ p);
  checkpw p h := Some (String.eqb h ("$2b$" +:+ p))
|}.

Module Fixtures.
Import UserService.

Definition config5 : AuthServiceConfig := mkConfig 5 30.

(** The user alice, password [secret], [n] failed attempts on record. *)
Definition alice (n : Z) : UserModel :=
  mkUser "u1" "alice" "alice@example.org" None None None ["user"] "user"
    true false false "$2b$secret" n None None 0 None [].

(** One row, nothing cached. *)
Definition cold (n : Z) : ServiceState :=
  mkState [alice n] [] ∅ (mkMetrics 1 1 0 0 0).

(** The [reason] of the audit rows, oldest first. *)
Definition reasons (s : ServiceState) : list (option json) :=
  List.map (fun a => assoc "reason" (audit_metadata a)) (audit_log s).

End Fixtures.

Section Vocabulary.
Import UserService.

Context {bcrypt : Bcrypt} (config : AuthServiceConfig).

(** The entry of [s'] under [username:<name>] is the one [s] had. *)
Definition username_entry_kept (name : string) (s s' : ServiceState) : Prop :=
  _user_cache s' !! ("username:" +:+ name) = _user_cache s !! ("username:" +:+ name).

(** Two states that differ in the cache at most. *)
Definition same_tables (s s' : ServiceState) : Prop :=
  users s' = users s /\ audit_log s' = audit_log s /\ metrics s' = metrics s.

(** The row of the authenticated user after a successful login: the
    three columns the success path writes, and [updated_at]. *)
Definition after_successful_login (user_id : string) (now : Z) (r : UserModel)
  : UserModel :=
  if String.eqb (id r) user_id then
    mkUser (id r) (username r) (email r) (first_name r) (last_name r) (display_name r)
      (roles r) (primary_role r) (is_active r) (email_verified r) (mfa_enabled r)
      (password_hash r) 0 None (Some now) (created_at r) (Some now) (metadata r)
  else r.

(** The row [_create_default_admin] inserts. *)
Definition admin_row (user_id hash : string) (now : Z) : UserModel :=
  mkUser user_id "admin" "admin@reusable-iam.local" (Some "System")
    (Some "Administrator") (Some "System Administrator") ["admin"; "user"] "admin"
    true true false hash 0 None None now None [].


Variable issue_tokens : UserModel -> Z -> Svc json.

(** A sequence of login requests, each with the time it arrives at; the
    result is the status code of each response. *)
Fixpoint login_statuses (requests : list (AuthenticationService.LoginRequest * Z))
  (s : ServiceState) : list Z * ServiceState :=
  match requests with
  | [] => ([], s)
  | (request, now) :: rest =>
      let '(o, s1) := AuthenticationService.login config issue_tokens request now s in
      let '(codes, s2) := login_statuses rest s1 in
      (status_code (AuthenticationService.respond o "") :: codes, s2)
  end.

End Vocabulary.

Section GatewayVocabulary.
Import ApiGateway.

(** A forwarder that answers with the service and the path it was
    asked for. *)
Definition echo : Collaborators :=
  mkCollaborators
    (fun _ => Return tt)
    (fun _ => Return (mkAuthResult true "u1" ""))
    (fun _ _ _ _ => Return (mkAuthResult true "u1" ""))
    (fun f => Return (JSONResponse 200
                        (JObj [("service", JStr (service_name f));
                               ("path", JStr (path f))])))
    1700000000.


(** The checks a handler makes before it forwards let the request
    through. *)
Definition admitted (app : Collaborators) (r : Route) (request : Request) : Prop :=
  match r with
  | PostAuthLogin | PostAuthRefresh | GetAuthValidate | GetAuthzStatus => True
  | PostAuthLogout | GetUsersMe | PutUsersMe =>
      exists a, require_authentication app request = Return a
  | PostAuthzAuthorize | PostAuthzAuthorizeBulk | PostAuthzAuthorizeBatchOptimized =>
      check_rate_limit app request = Return tt
  | GetAuthzPolicies =>
      require_admin app request "policies" "read" "/api/v1/authz/policies" = Return tt
  | PostAuthzPolicies =>
      require_admin app request "policies" "create" "/api/v1/authz/policies" = Return tt
  | GetAuthzAuditDecisions =>
      require_admin app request "audit" "read" "/api/v1/authz/audit/decisions"
      = Return tt
  | Proxy path => exists service, (proxy_target path).1 = Some service
  end.

(** What [authorize] asks the forwarder for. *)
Definition authorize_forward (request : Request) : Forward :=
  mkForward "authorization" "/authorize" "POST" (headers request) None
    (Some (body request)).

End GatewayVocabulary.

Section FallbackVocabulary.
Import ApiGateway.





End FallbackVocabulary.

(** The envelope of the specification:
    [{"error": {"code": int, "message": str, "path": str, "timestamp": number}}]. *)
Definition is_error_envelope (j : json) : bool :=
  match json_get "error" j with
  | Some e =>
      match json_get "code" e, json_get "message" e,
            json_get "path" e, json_get "timestamp" e with
      | Some (JNum _), Some (JStr _), Some (JStr _), Some (JNum _) => true
      | _, _, _, _ => false
      end
  | None => false
  end.

(** [j["error"][k]] *)
Definition error_field (k : string) (j : json) : option json :=
  match json_get "error" j with
  | Some e => json_get k e
  | None => None
  end.

(** ** Vocabulary of the further properties *)

Section UserServiceVocabulary.
Import UserService.

Context {bcrypt : Bcrypt}.

(** The row [create_user] inserts for [user_data]. *)
Definition created_row (user_data : CreateUserData) (user_id name mail hash : string)
  (now : Z) : UserModel :=
  mkUser user_id name mail (cu_first_name user_data) (cu_last_name user_data)
    (cu_display_name user_data) (default ["user"] (cu_roles user_data))
    (default "user" (cu_primary_role user_data)) (default true (cu_is_active user_data))
    (default false (cu_email_verified user_data))
    (default false (cu_mfa_enabled user_data)) hash 0 None None now None
    (default [] (cu_metadata user_data)).

(** The columns [update_user] has no access to. *)
Definition protected_columns (r : UserModel)
  : string * string * string * Z * option Z * option Z * Z :=
  (id r, username r, password_hash r, failed_login_attempts r, locked_until r,
   last_login r, created_at r).

(** The state [update_user] reads the record back from, once the
    UPDATE went through. *)
Definition updated_state (user_id : string) (update_data : UpdateData) (now : Z)
  (s : ServiceState) : ServiceState :=
  mkState
    (List.map (fun r => if by_id user_id r then values_update update_data now r else r)
       (users s))
    (audit_log s
     ++ [mkAudit (Some user_id) "user_updated" true
           [("fields", JArr (List.map JStr (update_fields update_data ++ ["updated_at"])))]
           now])
    (invalidate user_id (_user_cache s)) (metrics s).

(** What [authenticate_user] answers for the record [o] the getter
    handed it, and the audit row it writes. *)
Definition verdict (o : option UserModel) (password : string) (now : Z)
  : option UserModel :=
  match o with
  | Some u =>
      if is_active u && negb (is_locked_at u now)
         && _verify_password password (password_hash u)
      then Some u else None
  | None => None
  end.

Definition verdict_audit (o : option UserModel) (name password : string) (now : Z)
  : AuditLogModel :=
  match o with
  | None =>
      mkAudit None "login_failed" false
        [("reason", JStr "user_not_found"); ("username", JStr name)] now
  | Some u =>
      if negb (is_active u) then
        mkAudit (Some (id u)) "login_failed" false
          [("reason", JStr "account_inactive")] now
      else if is_locked_at u now then
        mkAudit (Some (id u)) "login_failed" false
          [("reason", JStr "account_locked")] now
      else if negb (_verify_password password (password_hash u)) then
        mkAudit (Some (id u)) "login_failed" false
          [("reason", JStr "invalid_password")] now
      else mkAudit (Some (id u)) "login_success" true [] now
  end.

(** The record is turned away before its password is looked at. *)
Definition turned_away (o : option UserModel) (now : Z) : bool :=
  match o with
  | Some u => negb (is_active u) || is_locked_at u now
  | None => true
  end.

Definition authenticated (r : outcome (option UserModel)) : bool :=
  match r with
  | Return (Some _) => true
  | _ => false
  end.

(** How far [metrics["total_users"]] is from the number of rows. *)
Definition total_users_drift (s : ServiceState) : Z :=
  total_users (metrics s) - Z.of_nat (List.length (users s)).

End UserServiceVocabulary.

Section GatewayGates.
Import ApiGateway.

(** The handlers that open with the authentication check. *)
Definition requires_authentication (r : Route) : bool :=
  match r with
  | PostAuthLogout | GetUsersMe | PutUsersMe
  | GetAuthzPolicies | PostAuthzPolicies | GetAuthzAuditDecisions => true
  | _ => false
  end.

(** The handlers that go on with the admin check, and what they ask the
    authorization service: resource, action, path. *)
Definition admin_check (r : Route) : option (string * string * string) :=
  match r with
  | GetAuthzPolicies => Some ("policies", "read", "/api/v1/authz/policies")
  | PostAuthzPolicies => Some ("policies", "create", "/api/v1/authz/policies")
  | GetAuthzAuditDecisions => Some ("audit", "read", "/api/v1/authz/audit/decisions")
  | _ => None
  end.

(** The handlers with an [except HTTPException: raise] clause. *)
Definition reraises (r : Route) : bool :=
  match r with
  | PostAuthLogin | PostAuthRefresh | GetAuthValidate | GetAuthzStatus => false
  | _ => true
  end.

(** The handlers that call the rate limiter. *)
Definition rate_limited (r : Route) : bool :=
  match r with
  | PostAuthzAuthorize | PostAuthzAuthorizeBulk | PostAuthzAuthorizeBatchOptimized => true
  | _ => false
  end.

(** [app] with another rate limiter. *)
Definition with_limiter (app : Collaborators) (limiter : Request -> outcome unit)
  : Collaborators :=
  mkCollaborators limiter (authenticate_request app) (check_authorization app)
    (forward_request app) (time_time app).

(** A health check said yes. *)
Definition said_healthy (o : outcome bool) : bool :=
  match o with
  | Return true => true
  | _ => false
  end.

(** A check that [health_check] of the authorization service made
    raised.  The checks are made in the order database, policy
    service, engine; none is made after one that raised, and none on a
    service that is not there. *)
Definition check_raised (db : outcome bool) (policy engine : option (outcome bool))
  : bool :=
  match db with
  | Raise _ => true
  | Return _ =>
      match AuthorizationEndpoints.health_of policy with
      | Raise _ => true
      | Return _ =>
          match AuthorizationEndpoints.health_of engine with
          | Raise _ => true
          | Return _ => false
          end
      end
  end.

End GatewayGates.

Section BulkVocabulary.
Import AuthorizationService AuthorizationEndpoints.

(** The summary of a bulk response counts every result once. *)
Definition summary_accounts (resp : BulkAuthorizationResponse) : Prop :=
  exists permitted denied errors,
    summary resp = [("total", Z.of_nat (List.length (results resp)));
                    ("permitted", permitted); ("denied", denied); ("errors", errors)]
    /\ 0 <= permitted /\ 0 <= denied /\ 0 <= errors
    /\ permitted + denied + errors = Z.of_nat (List.length (results resp)).

(** What a query parameter becomes among the filters. *)
Definition as_filter (v : option string) : option json :=
  match v with
  | Some s => if String.eqb s "" then None else Some (JStr s)
  | None => None
  end.

End BulkVocabulary.

Section EndpointVocabulary.
Import AuthenticationEndpoints.

(** The user the dependencies of a protected endpoint resolve to. *)
Definition authenticated_as (app : Services) (credentials : option string)
  : option UserProfile :=
  match credentials with
  | Some token =>
      match authenticate_jwt app token with
      | Return (Some user) => Some user
      | _ => None
      end
  | None => None
  end.

Definition unauthorized {A : Type} : outcome A :=
  Raise (HTTPException 401 "Authentication required").

End EndpointVocabulary.

(** Concrete inputs for the further properties. *)
Module MoreFixtures.
Import UserService.

(** A request to create bob, and one for the name alice has. *)
Definition new_user (name : string) : CreateUserData :=
  mkCreate (Some name) (Some (name +:+ "@example.org")) (Some "hunter2")
    None None None None None None None None None.

(** An update of the display name, and one without an allowed key. *)
Definition rename : UpdateData :=
  mkUpdate None None (Some (Some "Alice L.")) None None None None None None None.

Definition no_update : UpdateData :=
  mkUpdate None None None None None None None None None None.

(** alice, locked until [t]; one row, nothing cached. *)
Definition locked_alice (t : Z) : UserModel :=
  mkUser "u1" "alice" "alice@example.org" None None None ["user"] "user"
    true false false "$2b$secret" 5 (Some t) None 0 None [].

Definition locked (t : Z) : ServiceState :=
  mkState [locked_alice t] [] ∅ (mkMetrics 1 1 0 0 0).

(** A gateway whose middleware accepts no one and whose upstreams say
    which of them was asked for which path. *)
Definition strangers_only : ApiGateway.Collaborators :=
  ApiGateway.mkCollaborators
    (fun _ => Return tt)
    (fun _ => Return (ApiGateway.mkAuthResult false "" "Invalid token"))
    (fun _ _ _ _ => Return (ApiGateway.mkAuthResult false "" "denied"))
    (fun f => Return (JSONResponse 200
                        (JObj [("service", JStr (ApiGateway.service_name f));
                               ("path", JStr (ApiGateway.path f))])))
    1700000000.

(** A gateway that accepts everyone, in front of upstreams that always
    answer [o]. *)
Definition in_front_of (o : outcome Response) : ApiGateway.Collaborators :=
  ApiGateway.mkCollaborators
    (fun _ => Return tt)
    (fun _ => Return (ApiGateway.mkAuthResult true "u1" ""))
    (fun _ _ _ _ => Return (ApiGateway.mkAuthResult true "u1" ""))
    (fun _ => o)
    1700000000.

(** Token and session services that accept the token [good] for the
    user [u1] and never fail. *)
Definition accepting : AuthenticationEndpoints.Services :=
  AuthenticationEndpoints.mkServices
    (fun token => Return (if String.eqb token "good"
                          then Some (AuthenticationEndpoints.mkProfile "u1") else None))
    (fun token => Return (if String.eqb token "refresh"
                          then Some (AuthenticationEndpoints.mkProfile "u1") else None))
    (fun _ => Return [("exp", JNum 1700003600)])
    (fun _ => Return "access")
    (fun _ => Return "refresh2")
    (fun _ => Return tt)
    (fun _ => Return tt)
    (fun _ => Return 1)
    (fun _ _ => Return true)
    (fun _ => Return (JArr []))
    (fun _ => Return "2023-11-14T23:13:20")
    true 60.

(** alice's row, no call made yet. *)
Definition fresh : AuthenticationEndpoints.World :=
  AuthenticationEndpoints.mkWorld (Fixtures.cold 0) [].

End MoreFixtures.


(** * Properties *)

(** ** Python strings *)

Lemma prefix_nil (s : string) : String.prefix "" s = true.
Proof. destruct s; reflexivity. Qed.

Lemma prefix_refl (s : string) : String.prefix s s = true.
Proof.
  induction s as [|c s IH]; simpl; [reflexivity|].
  destruct (ascii_dec c c); [exact IH | congruence].
Qed.

Lemma prefix_app (p s : string) : String.prefix p (p +:+ s) = true.
Proof.
  induction p as [|c p IH].
  - apply prefix_nil.
  - change (String c p +:+ s) with (String c (p +:+ s)). simpl.
    destruct (ascii_dec c c); [exact IH | congruence].
Qed.

Lemma drop_chars_app (p s : string) : drop_chars (String.length p) (p +:+ s) = s.
Proof. induction p as [|c p IH]; [reflexivity | exact IH]. Qed.

(** When [old] is a prefix, [replace(old, "", 1)] strips it. *)
Lemma replace_first_prefix (old s : string) : replace_first old "" (old +:+ s) = s.
Proof.
  destruct old as [|c old].
  - change ("" +:+ s) with s. destruct s; reflexivity.
  - change (String c old +:+ s) with (String c (old +:+ s)).
    unfold replace_first; fold replace_first.
    change (String c (old +:+ s)) with (String c old +:+ s).
    rewrite prefix_app, drop_chars_app. reflexivity.
Qed.

Lemma plain_bcrypt_sound : BcryptSound plain_bcrypt.
Proof.
  constructor. intros p p' salt h [= <-]. cbn [checkpw plain_bcrypt]. f_equal.
  destruct (bool_decide_reflect (p = p')) as [->|Hne].
  - apply String.eqb_refl.
  - apply String.eqb_neq. intros Heq. apply Hne.
    cbn in Heq. injection Heq as Heq. symmetry. exact Heq.
Qed.


(** ** The user cache *)

Section UserCache.
Import UserService.

Lemma lookup_foldr_delete {V : Type} (keys : list string) (m : gmap string V)
  (k : string) :
  foldr delete m keys !! k = if decide (k ∈ keys) then None else m !! k.
Proof.
  induction keys as [|k' keys IH]; simpl.
  - reflexivity.
  - destruct (decide (k = k')) as [->|Hne].
    + rewrite lookup_delete_eq. rewrite decide_True; [reflexivity | left].
    + rewrite lookup_delete_ne by congruence. rewrite IH.
      destruct (decide (k ∈ keys)) as [Hin|Hnin].
      * rewrite decide_True; [reflexivity | by right].
      * rewrite decide_False; [reflexivity |].
        intros Hin. apply elem_of_cons in Hin as [?|?]; congruence.
Qed.

(** What [_invalidate_user_cache] leaves in the dictionary. *)
Lemma invalidate_lookup (user_id : string) (cache : gmap string CacheEntry)
  (k : string) :
  invalidate user_id cache !! k =
  if cache_key_matches user_id k then None else cache !! k.
Proof.
  unfold invalidate. rewrite lookup_foldr_delete.
  destruct (cache_key_matches user_id k) eqn:Hm.
  - destruct (cache !! k) as [e|] eqn:Hk.
    + rewrite decide_True; [reflexivity |].
      apply list_elem_of_In, filter_In. split; [|exact Hm].
      apply list_elem_of_In. apply (list_elem_of_fmap_2 fst _ (k, e)).
      by apply elem_of_map_to_list.
    + by destruct (decide _).
  - rewrite decide_False; [reflexivity |].
    intros Hin. apply list_elem_of_In, filter_In in Hin as [_ Hin]. congruence.
Qed.

Lemma username_key_is_no_user_id_key (name user_id : string) :
  startswith ("username:" +:+ name) ("user_id:" +:+ user_id) = false.
Proof. reflexivity. Qed.

Lemma cache_keys_differ (name user_id : string) :
  "user_id:" +:+ user_id ≠ "username:" +:+ name.
Proof. intros H. cbn in H. discriminate H. Qed.

Lemma user_id_key_matches (user_id : string) :
  cache_key_matches user_id ("user_id:" +:+ user_id) = true.
Proof. unfold cache_key_matches, startswith. by rewrite prefix_refl. Qed.

(** The entry under [user_id:<id>] is always dropped ... *)
Lemma invalidate_drops_user_id_entry (user_id : string)
  (cache : gmap string CacheEntry) :
  invalidate user_id cache !! ("user_id:" +:+ user_id) = None.
Proof. by rewrite invalidate_lookup, user_id_key_matches. Qed.

(** ... and the one under [username:<name>] stays, unless the name
    happens to end in [:<id>]. *)
Lemma invalidate_keeps_username_entry (user_id name : string)
  (cache : gmap string CacheEntry) :
  endswith ("username:" +:+ name) (":" +:+ user_id) = false ->
  invalidate user_id cache !! ("username:" +:+ name) = cache !! ("username:" +:+ name).
Proof.
  intros Hend. rewrite invalidate_lookup. unfold cache_key_matches.
  rewrite username_key_is_no_user_id_key, Hend. reflexivity.
Qed.

End UserCache.

(** ** Mutations and the cache *)

Ltac svc :=
  unfold UserService.bind, UserService.ret, UserService.gets, UserService.modify,
    UserService.lift, UserService.raise, UserService.try_ in *;
  simpl in *.

Section Mutations.
Import UserService.

Context {bcrypt : Bcrypt} (config : AuthServiceConfig).

Variables (user_id name : string).
Hypothesis Hend : endswith ("username:" +:+ name) (":" +:+ user_id) = false.

Lemma change_password_keeps_username_entry new_password salt now s :
  username_entry_kept name s (change_password user_id new_password salt now s).2.
Proof.
  unfold username_entry_kept, change_password, update_where, _invalidate_user_cache,
    _log_auth_event, _hash_password.
  svc. destruct (hashpw new_password salt); simpl; [|reflexivity].
  destruct (0 <? _)%nat; simpl; [|reflexivity].
  by apply invalidate_keeps_username_entry.
Qed.

Lemma delete_user_keeps_username_entry now s :
  username_entry_kept name s (delete_user user_id now s).2.
Proof.
  unfold username_entry_kept, delete_user, delete_where, _invalidate_user_cache,
    _log_auth_event.
  svc. destruct (0 <? _)%nat; simpl; [|reflexivity].
  by apply invalidate_keeps_username_entry.
Qed.

Lemma handle_failed_login_keeps_username_entry u now s :
  id u = user_id ->
  username_entry_kept name s (_handle_failed_login config u now s).2.
Proof.
  intros <-.
  unfold username_entry_kept, _handle_failed_login, update_where, _invalidate_user_cache.
  svc. by apply invalidate_keeps_username_entry.
Qed.

Lemma reset_failed_attempts_keeps_username_entry now s :
  username_entry_kept name s (_reset_failed_attempts user_id now s).2.
Proof.
  unfold username_entry_kept, _reset_failed_attempts, update_where, _invalidate_user_cache.
  svc. by apply invalidate_keeps_username_entry.
Qed.

Lemma update_last_login_keeps_username_entry now s :
  username_entry_kept name s (_update_last_login user_id now s).2.
Proof.
  unfold username_entry_kept, _update_last_login, update_where, _invalidate_user_cache.
  svc. by apply invalidate_keeps_username_entry.
Qed.

Lemma update_user_keeps_username_entry update_data now s :
  username_entry_kept name s (update_user user_id update_data now s).2.
Proof.
  unfold username_entry_kept, update_user.
  destruct (update_fields update_data) as [|f fs]; [reflexivity|].
  unfold select_where, update_where, _invalidate_user_cache, _log_auth_event,
    get_user_by_id, cache_probe, load_user, select_where.
  svc.
  destruct (scalar_one_or_none (List.map _ (List.filter (by_id user_id) (users s))))
    as [[r|]|e]; simpl; try reflexivity.
  rewrite invalidate_drops_user_id_entry. simpl.
  destruct (scalar_one_or_none _) as [[r'|]|e]; simpl;
    rewrite ?lookup_insert_ne by apply cache_keys_differ;
    by apply invalidate_keeps_username_entry.
Qed.

End Mutations.

(** C4.  A user looked up by id and by name has two cache entries.
    Changing the password drops the one keyed by id and leaves the one
    keyed by name: ten seconds later [get_user_by_username] still
    answers with the record that carries the old password hash, while
    the row in the table has the new one. *)
Example change_password_leaves_username_entry :
  let s0 := Fixtures.cold 0 in
  let s1 := (UserService.get_user_by_id "u1" 0 s0).2 in
  let s2 := (UserService.get_user_by_username "alice" 0 s1).2 in
  let '(changed, s3) := UserService.change_password "u1" "fresh" "salt" 10 s2 in
  let '(read, _) := UserService.get_user_by_username "alice" 20 s3 in
  changed = Return true
  /\ List.map UserService.password_hash (UserService.users s3) = ["$2b$fresh"]
  /\ UserService._user_cache s3 !! "user_id:u1" = None
  /\ UserService._user_cache s3 !! "username:alice"
     = UserService._user_cache s2 !! "username:alice"
  /\ UserService.password_hash <$> (UserService.user <$>
       UserService._user_cache s3 !! "username:alice") = Some "$2b$secret"
  /\ read = Return (Some (UserService.user_data_of (Fixtures.alice 0))).
Proof. vm_compute. repeat split; reflexivity. Qed.

(** ** Authentication *)

Section Authentication.
Import UserService.

Context {bcrypt : Bcrypt} (config : AuthServiceConfig).

Lemma filter_map_preserving (p : UserModel -> bool) (f : UserModel -> UserModel)
  (rows : list UserModel) :
  (forall r, p (f r) = p r) ->
  List.filter p (List.map f rows) = List.map f (List.filter p rows).
Proof.
  intros Hp. induction rows as [|r rows IH]; simpl; [reflexivity|].
  rewrite Hp. destruct (p r); simpl; by rewrite IH.
Qed.

Lemma load_user_tables key p now s o s' :
  load_user key p now s = (o, s') -> same_tables s s'.
Proof.
  unfold load_user, select_where. svc.
  destruct (scalar_one_or_none (List.filter p (users s))) as [[um|]|e];
    intros [= <- <-]; by repeat split.
Qed.

(** A getter returns, and writes to the cache only. *)
Lemma getter_total key p now s :
  exists r s',
    try_ (hit <- cache_probe key now ;;
          match hit with
          | Some user_data => ret (Some user_data)
          | None => load_user key p now
          end) (fun _ => ret None) s = (Return r, s')
    /\ same_tables s s'.
Proof.
  unfold cache_probe. svc.
  destruct (_user_cache s !! key) as [c|]; [destruct (expires c >? now)|].
  1: by eexists _, _; split; [reflexivity|repeat split].
  all: destruct (load_user key p now s) as [[r|e] s1] eqn:E;
       apply load_user_tables in E; by eexists _, _.
Qed.

Lemma get_user_by_username_total name now s :
  exists r s', get_user_by_username name now s = (Return r, s') /\ same_tables s s'.
Proof. apply getter_total. Qed.

Lemma get_user_by_id_total user_id now s :
  exists r s', get_user_by_id user_id now s = (Return r, s') /\ same_tables s s'.
Proof. apply getter_total. Qed.

(** A fresh entry is returned as it is, and nothing is written. *)
Lemma get_user_by_username_hit name now s c :
  _user_cache s !! ("username:" +:+ name) = Some c -> expires c > now ->
  get_user_by_username name now s = (Return (Some (user c)), s).
Proof.
  intros Hc Hfresh. unfold get_user_by_username, cache_probe. svc. rewrite Hc.
  rewrite (proj2 (Z.gtb_gt _ _)) by exact Hfresh. reflexivity.
Qed.

(** Without a fresh entry the row of the table is read, and cached. *)
Lemma get_user_by_username_miss name now s r :
  (forall c, _user_cache s !! ("username:" +:+ name) = Some c -> expires c <= now) ->
  List.filter (by_username name) (users s) = [r] ->
  get_user_by_username name now s =
  (Return (Some (user_data_of r)),
   set_cache (insert ("username:" +:+ name) (mkEntry (user_data_of r) (now + _cache_ttl))) s).
Proof.
  intros Hc Hrow. unfold get_user_by_username, cache_probe, load_user, select_where. svc.
  destruct (_user_cache s !! ("username:" +:+ name)) as [c|].
  - specialize (Hc c eq_refl).
    destruct (Z.gtb_spec (expires c) now); [lia|]. rewrite Hrow. reflexivity.
  - rewrite Hrow. reflexivity.
Qed.

(** [authenticate_user] never raises. *)
Lemma authenticate_user_total name password now s :
  exists r s', authenticate_user config name password now s = (Return r, s').
Proof.
  unfold authenticate_user, try_.
  destruct (bind _ _ s) as [[r|e] s']; by eexists _, _.
Qed.

(** C8.  When [authenticate_user] succeeds with user [u], the table is
    the old one with the row of [u] changed in four columns only:
    [failed_login_attempts] is 0 whatever it was, [locked_until] is
    NULL, [last_login] and [updated_at] are the time of the call.  Every
    other column and every other row is as before, and the audit table
    gains the [login_success] row. *)
Theorem authenticate_success_resets name password now s u s' :
  authenticate_user config name password now s = (Return (Some u), s') ->
  users s' = List.map (after_successful_login (id u) now) (users s)
  /\ audit_log s' = audit_log s ++ [mkAudit (Some (id u)) "login_success" true [] now].
Proof.
  unfold authenticate_user.
  destruct (get_user_by_username_total name now s) as (r & s1 & Hget & Hu & Ha & Hm).
  unfold try_ at 1. unfold bind at 1. rewrite Hget.
  destruct r as [user|]; [|svc; congruence].
  destruct (is_active user); simpl; [|svc; congruence].
  destruct (is_locked_at user now); [svc; congruence|].
  destruct (_verify_password password (password_hash user)); simpl.
  2:{ unfold _handle_failed_login, update_where, _invalidate_user_cache. svc. congruence. }
  unfold _reset_failed_attempts, _update_last_login, update_where, _invalidate_user_cache,
    _log_auth_event.
  svc. intros [= <- <-]. simpl. rewrite Hu, Ha, List.map_map. split; [|reflexivity].
  apply List.map_ext. intros r. unfold after_successful_login, by_id.
  destruct (String.eqb (id r) (id user)) eqn:E; simpl; rewrite ?E; reflexivity.
Qed.

(** The record [authenticate_user] judges is the cached one: with a
    fresh entry under [username:<name>] that is active and not locked,
    the call succeeds exactly when [password] verifies against the hash
    in the entry, whatever the row in the table says. *)
Lemma authenticate_user_trusts_cached_entry name password now s c :
  _user_cache s !! ("username:" +:+ name) = Some c -> expires c > now ->
  is_active (user c) = true -> is_locked_at (user c) now = false ->
  exists s',
    authenticate_user config name password now s =
    (Return (if _verify_password password (password_hash (user c))
             then Some (user c) else None), s').
Proof.
  intros Hc Hfresh Hact Hlock. unfold authenticate_user.
  unfold try_ at 1. unfold bind at 1.
  rewrite (get_user_by_username_hit name now s c Hc Hfresh), Hact, Hlock. simpl.
  destruct (_verify_password password (password_hash (user c))); simpl.
  - unfold _reset_failed_attempts, _update_last_login, update_where,
      _invalidate_user_cache, _log_auth_event.
    svc. by eexists.
  - unfold _handle_failed_login, update_where, _invalidate_user_cache, _log_auth_event.
    svc. by eexists.
Qed.

(** The lock of the row is honoured when no fresh entry hides it. *)
Lemma authenticate_user_locked_row name password now s r t :
  (forall c, _user_cache s !! ("username:" +:+ name) = Some c -> expires c <= now) ->
  List.filter (by_username name) (users s) = [r] ->
  is_active r = true -> locked_until r = Some t -> t > now ->
  exists s',
    authenticate_user config name password now s = (Return None, s')
    /\ users s' = users s
    /\ audit_log s' = audit_log s
         ++ [mkAudit (Some (id r)) "login_failed" false
               [("reason", JStr "account_locked")] now].
Proof.
  intros Hc Hrow Hact Hlock Ht. unfold authenticate_user.
  unfold try_ at 1. unfold bind at 1.
  rewrite (get_user_by_username_miss name now s r Hc Hrow).
  unfold is_locked_at. simpl. rewrite Hact, Hlock. simpl.
  rewrite (proj2 (Z.gtb_gt _ _)) by exact Ht.
  unfold _log_auth_event. svc. by eexists.
Qed.

(** What [authenticate_user] does with the row of the table when no
    fresh cache entry stands in for it and the account is usable. *)
Lemma authenticate_user_row name password now s r :
  (forall c, _user_cache s !! ("username:" +:+ name) = Some c -> expires c <= now) ->
  List.filter (by_username name) (users s) = [r] ->
  is_active r = true -> is_locked_at r now = false ->
  exists s',
    authenticate_user config name password now s =
    (Return (if _verify_password password (password_hash r)
             then Some (user_data_of r) else None), s')
    /\ _user_cache s' !! ("username:" +:+ name)
       = invalidate (id r)
           (<["username:" +:+ name := mkEntry (user_data_of r) (now + _cache_ttl)]>
              (_user_cache s)) !! ("username:" +:+ name)
    /\ (_verify_password password (password_hash r) = false ->
        users s' =
        List.map (fun r' =>
                    if by_id (id r) r' then
                      values_attempts (failed_login_attempts r + 1)
                        (if failed_login_attempts r + 1 >=? max_failed_attempts config
                         then Some (now + lockout_duration config) else None) now r'
                    else r') (users s)
        /\ audit_log s' = audit_log s
             ++ [mkAudit (Some (id r)) "login_failed" false
                   [("reason", JStr "invalid_password")] now]).
Proof.
  intros Hc Hrow Hact Hlock. unfold authenticate_user.
  unfold try_ at 1. unfold bind at 1.
  rewrite (get_user_by_username_miss name now s r Hc Hrow).
  change (is_active (user_data_of r)) with (is_active r).
  change (is_locked_at (user_data_of r) now) with (is_locked_at r now).
  change (password_hash (user_data_of r)) with (password_hash r).
  rewrite Hact, Hlock. simpl.
  destruct (_verify_password password (password_hash r)); simpl.
  - unfold _reset_failed_attempts, _update_last_login, update_where,
      _invalidate_user_cache, _log_auth_event.
    svc. eexists. split; [reflexivity|]. split; [|discriminate].
    unfold set_metrics. simpl. rewrite !invalidate_lookup.
    by destruct (cache_key_matches _ _).
  - unfold _handle_failed_login, update_where, _invalidate_user_cache, _log_auth_event.
    svc. eexists. by repeat split.
Qed.

(** A login attempt on a usable account leaves the record it read in
    the cache, under the user's name, for the next [_cache_ttl]
    seconds; what the attempt wrote to the row is not in it. *)
Lemma authenticate_user_caches_row name password now s r :
  (forall c, _user_cache s !! ("username:" +:+ name) = Some c -> expires c <= now) ->
  List.filter (by_username name) (users s) = [r] ->
  is_active r = true -> is_locked_at r now = false ->
  endswith ("username:" +:+ name) (":" +:+ id r) = false ->
  _user_cache (authenticate_user config name password now s).2 !! ("username:" +:+ name)
  = Some (mkEntry (user_data_of r) (now + _cache_ttl)).
Proof.
  intros Hc Hrow Hact Hlock Hend.
  destruct (authenticate_user_row name password now s r Hc Hrow Hact Hlock)
    as (s' & -> & Hcache & _).
  simpl. rewrite Hcache, invalidate_keeps_username_entry by exact Hend.
  apply lookup_insert_eq.
Qed.

(** The lock that a failed attempt writes is hidden by the record the
    same attempt cached: until that entry expires, the right password
    authenticates the locked user. *)
Lemma lock_hidden_by_cached_entry name wrong right now now' s r :
  (forall c, _user_cache s !! ("username:" +:+ name) = Some c -> expires c <= now) ->
  List.filter (by_username name) (users s) = [r] ->
  is_active r = true -> locked_until r = None ->
  endswith ("username:" +:+ name) (":" +:+ id r) = false ->
  failed_login_attempts r + 1 >= max_failed_attempts config ->
  _verify_password wrong (password_hash r) = false ->
  _verify_password right (password_hash r) = true ->
  now' < now + _cache_ttl ->
  let s1 := (authenticate_user config name wrong now s).2 in
  List.map locked_until (List.filter (by_username name) (users s1))
  = [Some (now + lockout_duration config)]
  /\ exists s2,
       authenticate_user config name right now' s1 = (Return (Some (user_data_of r)), s2).
Proof.
  intros Hc Hrow Hact Hnolock Hend Hmax Hwrong Hright Httl s1.
  assert (Hlock : forall t, is_locked_at r t = false)
    by (intros t; unfold is_locked_at; by rewrite Hnolock).
  split.
  - subst s1.
    destruct (authenticate_user_row name wrong now s r Hc Hrow Hact (Hlock now))
      as (s' & -> & _ & Hfail).
    destruct (Hfail Hwrong) as [Hu _]. simpl. rewrite Hu.
    rewrite filter_map_preserving.
    + rewrite Hrow. simpl. unfold by_id. rewrite String.eqb_refl. simpl.
      by rewrite (proj2 (Z.geb_le _ _)) by lia.
    + intros r'. by destruct (by_id (id r) r').
  - destruct (authenticate_user_trusts_cached_entry name right now' s1
                (mkEntry (user_data_of r) (now + _cache_ttl))) as [s2 Hs2].
    + by apply authenticate_user_caches_row.
    + simpl. lia.
    + exact Hact.
    + apply Hlock.
    + exists s2. rewrite Hs2. simpl. by rewrite Hright.
Qed.

End Authentication.

Lemma authenticate_success_resets_witness :
  let s := Fixtures.cold 4 in
  let s' := (UserService.authenticate_user Fixtures.config5 "alice" "secret" 7 s).2 in
  UserService.authenticate_user Fixtures.config5 "alice" "secret" 7 s
  = (Return (Some (UserService.user_data_of (Fixtures.alice 4))), s')
  /\ List.map (fun r => (UserService.failed_login_attempts r,
                         UserService.locked_until r, UserService.last_login r))
       (UserService.users s') = [(0, None, Some 7)].
Proof.
  intros s s'.
  assert (H : UserService.authenticate_user Fixtures.config5 "alice" "secret" 7 s
              = (Return (Some (UserService.user_data_of (Fixtures.alice 4))), s'))
    by (vm_compute; reflexivity).
  split; [exact H|].
  destruct (authenticate_success_resets Fixtures.config5 _ _ _ _ _ _ H) as [Hu _].
  rewrite Hu. reflexivity.
Defined.

(** C3.  Alice has four failed attempts on record and the limit is five.
    A wrong password at time 100 writes the fifth attempt and the lock
    into her row: [locked_until] is 100 + 30 minutes = 1900.  The entry
    under [username:alice] that this very call cached is left in place,
    so one second later, with the lock still 1799 seconds from expiry,
    the right password authenticates her and the success path clears
    the lock. *)
Example lockout_bypassed_by_cached_entry :
  let s0 := Fixtures.cold 4 in
  let '(first, s1) :=
    UserService.authenticate_user Fixtures.config5 "alice" "wrong" 100 s0 in
  let '(second, s2) :=
    UserService.authenticate_user Fixtures.config5 "alice" "secret" 101 s1 in
  first = Return None
  /\ Fixtures.reasons s1 = [Some (JStr "invalid_password")]
  /\ List.map (fun r => (UserService.failed_login_attempts r, UserService.locked_until r))
       (UserService.users s1) = [(5, Some 1900)]
  /\ second = Return (Some (UserService.user_data_of (Fixtures.alice 4)))
  /\ List.map (fun r => (UserService.failed_login_attempts r, UserService.locked_until r))
       (UserService.users s2) = [(0, None)].
Proof. vm_compute. repeat split; reflexivity. Qed.

(** ** Password change *)

Section PasswordChange.
Import UserService.

Context {bcrypt : Bcrypt} {sound : BcryptSound bcrypt} (config : AuthServiceConfig).


(** With no fresh entry under [username:<name>] at the time of the
    login, a changed password is the one that authenticates, and any
    other one is turned down as [invalid_password]. *)
Lemma change_password_then_authenticate name r new_password salt now now' s password :
  List.filter (by_username name) (users s) = [r] ->
  (forall c, _user_cache s !! ("username:" +:+ name) = Some c -> expires c <= now') ->
  is_active r = true -> is_locked_at r now' = false ->
  is_Some (hashpw new_password salt) ->
  exists s1 s2,
    change_password (id r) new_password salt now s = (Return true, s1)
    /\ authenticate_user config name password now' s1 =
       (Return (if bool_decide (password = new_password)
                then Some (user_data_of (values_password
                             (default "" (hashpw new_password salt)) now r))
                else None), s2)
    /\ (password <> new_password ->
        exists a, last (audit_log s2) = Some a
                  /\ assoc "reason" (audit_metadata a) = Some (JStr "invalid_password")).
Proof.
  intros Hrow Hc Hact Hlock [h Hh].
  assert (Hin : In r (List.filter (by_id (id r)) (users s))).
  { apply filter_In. split; [|apply String.eqb_refl].
    assert (Hr : In r (List.filter (by_username name) (users s))) by (rewrite Hrow; by left).
    by apply filter_In in Hr as [Hr _]. }
  pose (f := fun r' => if by_id (id r) r' then values_password h now r' else r').
  pose (s1 := mkState (List.map f (users s))
                (audit_log s ++ [mkAudit (Some (id r)) "password_changed" true [] now])
                (invalidate (id r) (_user_cache s)) (metrics s)).
  assert (Hcp : change_password (id r) new_password salt now s = (Return true, s1)).
  { unfold change_password, _hash_password, update_where, _invalidate_user_cache,
      _log_auth_event.
    svc. rewrite Hh. simpl.
    destruct (List.filter (by_id (id r)) (users s)); [destruct Hin | reflexivity]. }
  assert (Hrow1 : List.filter (by_username name) (users s1) = [values_password h now r]).
  { simpl. rewrite filter_map_preserving.
    - rewrite Hrow. simpl. unfold f, by_id. by rewrite String.eqb_refl.
    - intros r'. unfold f. by destruct (by_id (id r) r'). }
  assert (Hc1 : forall c, _user_cache s1 !! ("username:" +:+ name) = Some c ->
                          expires c <= now').
  { intros c. simpl. rewrite invalidate_lookup.
    destruct (cache_key_matches _ _); [discriminate | apply Hc]. }
  destruct (authenticate_user_row config name password now' s1 _ Hc1 Hrow1 Hact Hlock)
    as (s2 & Hauth & _ & Haudit).
  exists s1, s2. rewrite Hh. simpl in *.
  unfold _verify_password in *. rewrite (checkpw_hashpw _ _ _ _ Hh) in *.
  repeat split; [exact Hcp | exact Hauth |].
  intros Hne. rewrite bool_decide_eq_false_2 in Haudit by exact Hne.
  destruct (Haudit eq_refl) as [_ ->]. rewrite last_snoc. by eexists.
Qed.

(** With the entry that an earlier login cached still fresh, a changed
    password does not authenticate and the one it replaced does. *)
Lemma password_change_hidden_by_cache name r old new salt now0 now1 now2 s :
  (forall c, _user_cache s !! ("username:" +:+ name) = Some c -> expires c <= now0) ->
  List.filter (by_username name) (users s) = [r] ->
  is_active r = true -> locked_until r = None ->
  endswith ("username:" +:+ name) (":" +:+ id r) = false ->
  _verify_password old (password_hash r) = true ->
  _verify_password new (password_hash r) = false ->
  now2 < now0 + _cache_ttl ->
  let s1 := (authenticate_user config name old now0 s).2 in
  let s2 := (change_password (id r) new salt now1 s1).2 in
  (authenticate_user config name new now2 s2).1 = Return None
  /\ (authenticate_user config name old now2 s2).1 = Return (Some (user_data_of r)).
Proof.
  intros Hc Hrow Hact Hnolock Hend Hold Hnew Httl s1 s2.
  assert (Hlock : forall t, is_locked_at r t = false)
    by (intros t; unfold is_locked_at; by rewrite Hnolock).
  assert (Hentry : _user_cache s2 !! ("username:" +:+ name)
                   = Some (mkEntry (user_data_of r) (now0 + _cache_ttl))).
  { subst s2. rewrite (change_password_keeps_username_entry (id r) name Hend).
    by apply authenticate_user_caches_row. }
  split.
  - destruct (authenticate_user_trusts_cached_entry config name new now2 s2 _ Hentry)
      as [s3 ->]; simpl; [lia | exact Hact | apply Hlock | by rewrite Hnew].
  - destruct (authenticate_user_trusts_cached_entry config name old now2 s2 _ Hentry)
      as [s3 ->]; simpl; [lia | exact Hact | apply Hlock | by rewrite Hold].
Qed.

End PasswordChange.

(** C5.  Alice logs in with [secret]; the call caches her record under
    [username:alice].  Ten seconds later her password is changed to
    [fresh], which succeeds and rewrites the row.  For as long as the
    cached entry lives the change is without effect on logins: [fresh]
    is turned down as [invalid_password], and [secret], which is not the
    password any more, authenticates. *)
Example password_change_hidden_by_cached_entry :
  let s0 := Fixtures.cold 0 in
  let s1 := (UserService.authenticate_user Fixtures.config5 "alice" "secret" 0 s0).2 in
  let '(changed, s2) := UserService.change_password "u1" "fresh" "salt" 10 s1 in
  let '(with_new, s3) :=
    UserService.authenticate_user Fixtures.config5 "alice" "fresh" 20 s2 in
  let '(with_old, s4) :=
    UserService.authenticate_user Fixtures.config5 "alice" "secret" 30 s3 in
  changed = Return true
  /\ List.map UserService.password_hash (UserService.users s2) = ["$2b$fresh"]
  /\ with_new = Return None
  /\ last (Fixtures.reasons s3) = Some (Some (JStr "invalid_password"))
  /\ with_old = Return (Some (UserService.user_data_of (Fixtures.alice 0))).
Proof. vm_compute. repeat split; reflexivity. Qed.

(** ** The login endpoint *)

Section Login.
Import UserService.

Context {bcrypt : Bcrypt} (config : AuthServiceConfig).
Variable issue_tokens : UserModel -> Z -> Svc json.

(** [login] answers a failed authentication with 401, whatever its
    reason, and a successful one with 500: [authenticate_user] hands
    back a dictionary, and [user.is_active] on it raises before a token
    is made.  The branch that raises 423 is never reached. *)
Lemma login_outcome request now s :
  exists s',
    AuthenticationService.login config issue_tokens request now s =
    (Raise (match (authenticate_user config (AuthenticationService.username request)
                     (AuthenticationService.password request) now s).1 with
            | Return (Some _) => HTTPException 500 "Login failed"
            | _ => HTTPException 401 "Invalid credentials"
            end), s').
Proof.
  unfold AuthenticationService.login, AuthenticationService.try_reraise.
  unfold bind at 1.
  destruct (authenticate_user_total config (AuthenticationService.username request)
              (AuthenticationService.password request) now s) as (r & s1 & ->).
  destruct r as [u|]; simpl; by eexists.
Qed.

Lemma login_never_423 request now s now_iso :
  status_code (AuthenticationService.respond
                 (AuthenticationService.login config issue_tokens request now s).1 now_iso)
  <> 423.
Proof.
  destruct (login_outcome request now s) as (s' & ->). simpl.
  destruct (authenticate_user _ _ _ _ _).1 as [[u|]|e]; simpl; discriminate.
Qed.

End Login.

(** C2.  Alice, limit five.  Five logins with a wrong password and a
    sixth with the right one, (a) one second apart and (b) twenty
    minutes apart, so that no cache entry survives from one request to
    the next.  In both runs the first five answers are 401 and their
    audit reason is [invalid_password].  The sixth answer is never 423:
    in (a) the cached record hides the failures, the authentication
    succeeds and the handler fails with 500; in (b) the account is
    locked, the audit reason is [account_locked], and the answer is
    401. *)
Example lockout_scenario_never_answers_423 :
  let wrong := AuthenticationService.mkLoginRequest "alice" "wrong" in
  let right := AuthenticationService.mkLoginRequest "alice" "secret" in
  let issue := fun (_ : UserService.UserModel) (_ : Z) => UserService.ret (JObj []) in
  let run := login_statuses Fixtures.config5 issue in
  let '(close, sa) :=
    run [(wrong, 1); (wrong, 2); (wrong, 3); (wrong, 4); (wrong, 5); (right, 6)]
      (Fixtures.cold 0) in
  let '(apart, sb) :=
    run [(wrong, 0); (wrong, 1200); (wrong, 2400); (wrong, 3600); (wrong, 4800);
         (right, 6000)] (Fixtures.cold 0) in
  close = [401; 401; 401; 401; 401; 500]
  /\ Fixtures.reasons sa
     = [Some (JStr "invalid_password"); Some (JStr "invalid_password");
        Some (JStr "invalid_password"); Some (JStr "invalid_password");
        Some (JStr "invalid_password"); None]
  /\ apart = [401; 401; 401; 401; 401; 401]
  /\ Fixtures.reasons sb
     = [Some (JStr "invalid_password"); Some (JStr "invalid_password");
        Some (JStr "invalid_password"); Some (JStr "invalid_password");
        Some (JStr "invalid_password"); Some (JStr "account_locked")]
  /\ List.map (fun r => (UserService.failed_login_attempts r, UserService.locked_until r))
       (UserService.users sb) = [(5, Some 6600)].
Proof. vm_compute. repeat split; reflexivity. Qed.

(** ** Bootstrap *)

Section Bootstrap.
Import UserService.

Context {bcrypt : Bcrypt}.

Lemma filter_by_username_none (name : string) (rows : list UserModel) :
  (forall a, a ∈ rows -> username a <> name) -> List.filter (by_username name) rows = [].
Proof.
  induction rows as [|r rows IH]; intros Hno; simpl; [reflexivity|].
  unfold by_username at 1.
  destruct (String.eqb_spec (username r) name) as [Heq|_].
  - exfalso. apply (Hno r); [left | exact Heq].
  - apply IH. intros a Ha. apply Hno. by right.
Qed.

(** With unique user names, the query by name finds the one row. *)
Lemma filter_by_username_unique (name : string) (rows : list UserModel) (a : UserModel) :
  NoDup (List.map username rows) -> a ∈ rows -> username a = name ->
  List.filter (by_username name) rows = [a].
Proof.
  induction rows as [|r rows IH]; intros Hnd Hin Hname; [by apply elem_of_nil in Hin|].
  simpl in Hnd. apply NoDup_cons in Hnd as [Hfresh Hnd]. simpl.
  apply elem_of_cons in Hin as [<-|Hin].
  - assert (Hr : by_username name a = true)
      by (unfold by_username; rewrite Hname; apply String.eqb_refl).
    rewrite Hr. f_equal.
    apply filter_by_username_none. intros b Hb Hbn. apply Hfresh.
    rewrite Hname, <- Hbn. apply list_elem_of_In, in_map, list_elem_of_In, Hb.
  - assert (Hr : by_username name r = false \/ username r = name)
      by (unfold by_username; destruct (String.eqb_spec (username r) name); auto).
    destruct Hr as [Hr|Heq]; [rewrite Hr; by apply IH|].
    exfalso. apply Hfresh. rewrite Heq, <- Hname.
    apply list_elem_of_In, in_map, list_elem_of_In, Hin.
Qed.

Lemma has_admin_dec (rows : list UserModel) :
  (exists a, a ∈ rows /\ username a = "admin")
  \/ (forall a, a ∈ rows -> username a <> "admin").
Proof.
  induction rows as [|r rows [(a & Ha & Hn)|IH]].
  - right. intros a Ha. by apply elem_of_nil in Ha.
  - left. exists a. split; [by right | exact Hn].
  - destruct (String.eqb_spec (username r) "admin") as [Heq|Hne].
    + left. exists r. split; [left | exact Heq].
    + right. intros a Ha. apply elem_of_cons in Ha as [->|Ha]; [exact Hne | by apply IH].
Qed.

Lemma bootstrap_existing_admin user_id salt now s a :
  NoDup (List.map username (users s)) -> a ∈ users s -> username a = "admin" ->
  users (_create_default_admin user_id salt now s).2 = users s.
Proof.
  intros Hnd Hin Hname.
  unfold _create_default_admin, get_user_by_username, cache_probe, load_user, select_where.
  svc. change ("username:" +:+ "admin") with "username:admin".
  destruct (_user_cache s !! "username:admin") as [c|]; [destruct (expires c >? now)|];
    try reflexivity;
    rewrite (filter_by_username_unique "admin" (users s) a Hnd Hin Hname); reflexivity.
Qed.

Lemma bootstrap_no_admin user_id salt now s h :
  _user_cache s !! "username:admin" = None ->
  hashpw "admin123" salt = Some h ->
  (forall a, a ∈ users s -> username a <> "admin") ->
  users (_create_default_admin user_id salt now s).2
  = users s ++ [admin_row user_id h now].
Proof.
  intros Hcache Hhash Hno.
  unfold _create_default_admin, create_user, get_user_by_username, cache_probe, load_user,
    select_where, _hash_password, _log_auth_event.
  svc. change ("username:" +:+ "admin") with "username:admin".
  rewrite Hcache, (filter_by_username_none "admin" (users s) Hno). simpl.
  rewrite Hcache, (filter_by_username_none "admin" (users s) Hno). simpl.
  rewrite Hhash. reflexivity.
Qed.

(** C9.  On a table with unique user names: (1) if a user named admin
    exists, [_create_default_admin] leaves the table as it is; (2) run
    as at startup, that is with no cache entry for the name, and with a
    hasher that accepts the default password, it adds exactly one row
    to a table without an admin, named admin and with the roles admin
    and user; (3) a second run, with whatever id, salt and time, leaves
    the table as the first run left it. *)
Theorem create_default_admin_idempotent user_id salt now user_id' salt' now' s :
  NoDup (List.map username (users s)) ->
  let s1 := (_create_default_admin user_id salt now s).2 in
  let s2 := (_create_default_admin user_id' salt' now' s1).2 in
  ((exists a, a ∈ users s /\ username a = "admin") -> users s1 = users s)
  /\ (_user_cache s !! "username:admin" = None ->
      forall h, hashpw "admin123" salt = Some h ->
        ((forall a, a ∈ users s -> username a <> "admin") ->
           users s1 = users s ++ [admin_row user_id h now]
           /\ username (admin_row user_id h now) = "admin"
           /\ roles (admin_row user_id h now) = ["admin"; "user"])
        /\ users s2 = users s1).
Proof.
  intros Hnd s1 s2. split.
  - intros (a & Hin & Hname). by apply (bootstrap_existing_admin _ _ _ _ a).
  - intros Hcache h Hhash. split.
    + intros Hno. split; [by apply bootstrap_no_admin | by split].
    + subst s2. destruct (has_admin_dec (users s)) as [(a & Hin & Hname)|Hno].
      * assert (Hs1 : users s1 = users s) by by apply (bootstrap_existing_admin _ _ _ _ a).
        apply (bootstrap_existing_admin _ _ _ _ a); rewrite ?Hs1; done.
      * assert (Hs1 : users s1 = users s ++ [admin_row user_id h now])
          by by apply bootstrap_no_admin.
        apply (bootstrap_existing_admin _ _ _ _ (admin_row user_id h now)).
        -- rewrite Hs1, List.map_app. simpl. apply NoDup_app. split; [exact Hnd|].
           split; [|apply NoDup_singleton].
           intros n Hn Hn'. apply list_elem_of_singleton in Hn'. subst n.
           apply list_elem_of_In, in_map_iff in Hn as (b & Hb & Hin).
           apply (Hno b); [by apply list_elem_of_In | exact Hb].
        -- rewrite Hs1. apply elem_of_app. right. by left.
        -- reflexivity.
Qed.

End Bootstrap.

Lemma create_default_admin_idempotent_witness :
  let s := Fixtures.cold 0 in
  let s1 := (UserService._create_default_admin "a1" "salt" 50 s).2 in
  let s2 := (UserService._create_default_admin "a2" "pepper" 60 s1).2 in
  NoDup (List.map UserService.username (UserService.users s))
  /\ UserService.users s1 = [Fixtures.alice 0; admin_row "a1" "$2b$admin123" 50]
  /\ UserService.users s2 = UserService.users s1.
Proof.
  intros s s1 s2.
  assert (Hnd : NoDup (List.map UserService.username (UserService.users s)))
    by (apply NoDup_singleton).
  destruct (create_default_admin_idempotent "a1" "salt" 50 "a2" "pepper" 60 s Hnd)
    as [_ H].
  destruct (H eq_refl "$2b$admin123" eq_refl) as [Hone Htwice].
  split; [exact Hnd|]. split; [|exact Htwice].
  apply Hone. intros a Ha. apply list_elem_of_singleton in Ha. by subst a.
Defined.

(** ** The authorize endpoint of the authorization service *)

(** C10.  If the engine raises on a request, whatever the exception,
    [POST /authorize] answers with status 200 and a response whose
    [success] is false, whose decision is DENY, not served from the
    cache, and without obligations.  No error response leaves this
    handler. *)
Theorem authorize_fails_closed
  (engine : AuthorizationService.AuthorizationRequest ->
            outcome AuthorizationService.AuthorizationResponse)
  (request : AuthorizationService.AuthorizationRequest) (e : exn) (now_iso : string) :
  engine request = Raise e ->
  exists response,
    AuthorizationService.respond
      (AuthorizationService.authorize engine request now_iso) now_iso
    = AuthorizationService.Body 200 response
    /\ AuthorizationService.success response = false
    /\ AuthorizationService.effect (AuthorizationService.decision response)
       = AuthorizationService.DENY
    /\ AuthorizationService.cache_hit (AuthorizationService.decision response) = false
    /\ AuthorizationService.obligations (AuthorizationService.decision response) = [].
Proof.
  intros He. unfold AuthorizationService.authorize. rewrite He. simpl.
  eexists. split; [reflexivity|]. by repeat split.
Qed.

Lemma authorize_fails_closed_witness :
  let engine := fun _ : AuthorizationService.AuthorizationRequest =>
    @Raise AuthorizationService.AuthorizationResponse (Exception "connection refused") in
  let request := AuthorizationService.mkRequest "alice" "doc1" "read" "r-1" in
  exists response,
    AuthorizationService.respond
      (AuthorizationService.authorize engine request "2026-01-01T00:00:00")
      "2026-01-01T00:00:00"
    = AuthorizationService.Body 200 response
    /\ AuthorizationService.success response = false
    /\ AuthorizationService.effect (AuthorizationService.decision response)
       = AuthorizationService.DENY
    /\ AuthorizationService.cache_hit (AuthorizationService.decision response) = false
    /\ AuthorizationService.obligations (AuthorizationService.decision response) = [].
Proof.
  intros engine request.
  exact (authorize_fails_closed engine request (Exception "connection refused")
           "2026-01-01T00:00:00" eq_refl).
Defined.

(** ** The generic proxy route *)

Section ProxyTarget.
Import ApiGateway.

Lemma proxy_target_authentication (path : string) :
  startswith path "auth/" || startswith path "users/" = true ->
  proxy_target path = (Some "authentication", path).
Proof. intros H. unfold proxy_target. by rewrite H. Qed.

Lemma proxy_target_authz (rest : string) :
  proxy_target ("authz/" +:+ rest) = (Some "authorization", rest).
Proof.
  unfold proxy_target. rewrite (replace_first_prefix "authz/" rest).
  assert (H : startswith ("authz/" +:+ rest) "authz/" = true) by apply prefix_app.
  rewrite H. reflexivity.
Qed.

(** Under [policies/] the path is searched for [authz/] too. *)
Lemma proxy_target_policies (rest : string) :
  proxy_target ("policies/" +:+ rest)
  = (Some "authorization", "policies/" +:+ replace_first "authz/" "" rest).
Proof.
  unfold proxy_target.
  assert (H : startswith ("policies/" +:+ rest) "policies/" = true) by apply prefix_app.
  rewrite H. reflexivity.
Qed.

Lemma proxy_target_unmatched (path : string) :
  startswith path "auth/" || startswith path "users/" = false ->
  startswith path "authz/" || startswith path "policies/" = false ->
  proxy_target path = (None, path).
Proof. intros H1 H2. unfold proxy_target. by rewrite H1, H2. Qed.

Lemma proxy_request_unmatched app request (path : string) :
  startswith path "auth/" || startswith path "users/" = false ->
  startswith path "authz/" || startswith path "policies/" = false ->
  status_code (serve app (Proxy path) request) = 404.
Proof.
  intros H1 H2. unfold serve, handler, proxy_request.
  by rewrite (proxy_target_unmatched path H1 H2).
Qed.

End ProxyTarget.

(** C6.  [GET /api/v1/policies/authz/x] goes to the authorization
    service, where it asks for [/policies/x]: the path has no [authz/]
    prefix to strip, and the [authz/] inside it is removed.  Next to it,
    the three cases in which the route does what is claimed. *)
Example proxy_strips_authz_inside_policies_path :
  let get := ApiGateway.mkRequest "GET" "" [] [] "" in
  let asked := fun p =>
    content (ApiGateway.serve echo (ApiGateway.Proxy p) (get)) in
  asked "policies/authz/x"
  = JObj [("service", JStr "authorization"); ("path", JStr "/policies/x")]
  /\ asked "policies/x"
     = JObj [("service", JStr "authorization"); ("path", JStr "/policies/x")]
  /\ asked "authz/status"
     = JObj [("service", JStr "authorization"); ("path", JStr "/status")]
  /\ asked "users/42"
     = JObj [("service", JStr "authentication"); ("path", JStr "/users/42")]
  /\ status_code (ApiGateway.serve echo (ApiGateway.Proxy "sessions/me") get) = 404.
Proof. vm_compute. repeat split; reflexivity. Qed.

(** ** The gateway's fallback *)

Section Fallback.
Import ApiGateway.










End Fallback.


(** ** Error bodies *)

(** C7, as the services have it.  Whatever a handler raises, (1) the
    gateway answers with the envelope: the status as [code], the path of
    the request as [path], the reading of the clock as [timestamp];
    (2) and (3) the authentication and the authorization service answer
    with [code], [message] and an ISO [timestamp] string, and no
    [path]. *)
Theorem error_bodies (app : ApiGateway.Collaborators) (request : ApiGateway.Request)
  (e : exn) (now_iso : string) :
  (let r := ApiGateway.respond app request (Raise e) in
   is_error_envelope (content r) = true
   /\ error_field "code" (content r) = Some (JNum (status_code r))
   /\ error_field "path" (content r) = Some (JStr (ApiGateway.url_path request))
   /\ error_field "timestamp" (content r) = Some (JNum (ApiGateway.time_time app)))
  /\ (let r := AuthenticationService.respond (Raise e) now_iso in
      exists message,
        content r = JObj [("error", JObj [("code", JNum (status_code r));
                                          ("message", JStr message);
                                          ("timestamp", JStr now_iso)])]
        /\ error_field "path" (content r) = None)
  /\ (exists r message,
        @AuthorizationService.respond AuthorizationService.AuthorizationResponse
          (Raise e) now_iso = AuthorizationService.Error r
        /\ content r = JObj [("error", JObj [("code", JNum (status_code r));
                                             ("message", JStr message);
                                             ("timestamp", JStr now_iso)])]
        /\ error_field "path" (content r) = None).
Proof.
  destruct e as [c d|m]; simpl; repeat split; eauto.
Qed.

(** C7, as claimed, fails.  The 401 of the authentication service for
    a failed login has no [path] in its body, and its [timestamp] is a
    string; the body is not the envelope. *)
Example authentication_error_has_no_path :
  let r := AuthenticationService.respond
             (Raise (HTTPException 401 "Invalid credentials")) "2026-01-01T00:00:00" in
  status_code r = 401
  /\ error_field "path" (content r) = None
  /\ error_field "timestamp" (content r) = Some (JStr "2026-01-01T00:00:00")
  /\ is_error_envelope (content r) = false.
Proof. vm_compute. repeat split; reflexivity. Qed.

(** * Further properties *)

(** ** The user service *)


Section MoreUserService.
Import UserService.

Context {bcrypt : Bcrypt}.

Lemma filter_by_username_at_most_one (name : string) (rows : list UserModel) :
  NoDup (List.map username rows) ->
  List.filter (by_username name) rows = []
  \/ exists r, List.filter (by_username name) rows = [r].
Proof.
  intros Hnd.
  destruct (List.filter (by_username name) rows) as [|r l] eqn:E; [by left|right].
  assert (Hr : In r (List.filter (by_username name) rows)) by (rewrite E; by left).
  apply filter_In in Hr as [Hin Hname].
  apply String.eqb_eq in Hname.
  apply list_elem_of_In in Hin.
  rewrite (filter_by_username_unique name rows r Hnd Hin Hname) in E.
  injection E as <-. by exists r.
Qed.

(** Without a fresh entry and without a row, the answer is [None] and
    nothing is cached. *)
Lemma get_user_by_username_absent name now s :
  (forall c, _user_cache s !! ("username:" +:+ name) = Some c -> expires c <= now) ->
  List.filter (by_username name) (users s) = [] ->
  get_user_by_username name now s = (Return None, s).
Proof.
  intros Hc Hrow. unfold get_user_by_username, cache_probe, load_user, select_where. svc.
  destruct (_user_cache s !! ("username:" +:+ name)) as [c|].
  - specialize (Hc c eq_refl).
    destruct (Z.gtb_spec (expires c) now); [lia|]. rewrite Hrow. reflexivity.
  - rewrite Hrow. reflexivity.
Qed.

(** On a table with unique names, [None] from [get_user_by_username]
    means: no fresh entry, no row, nothing written. *)
Lemma get_user_by_username_none name now s s' :
  NoDup (List.map username (users s)) ->
  get_user_by_username name now s = (Return None, s') ->
  s' = s
  /\ (forall c, _user_cache s !! ("username:" +:+ name) = Some c -> expires c <= now)
  /\ List.filter (by_username name) (users s) = [].
Proof.
  intros Hnd. unfold get_user_by_username, cache_probe, load_user, select_where. svc.
  destruct (filter_by_username_at_most_one name (users s) Hnd) as [Hrow|[r Hrow]].
  - destruct (_user_cache s !! ("username:" +:+ name)) as [c|] eqn:Hc.
    + destruct (Z.gtb_spec (expires c) now) as [Hlt|Hle]; [discriminate|].
      rewrite Hrow. simpl. intros [= <-]. split; [reflexivity|]. split; [|reflexivity].
      intros c' [= <-]. exact Hle.
    + rewrite Hrow. simpl. intros [= <-]. split; [reflexivity|]. split; [|reflexivity].
      intros c' Hc'. discriminate Hc'.
  - destruct (_user_cache s !! ("username:" +:+ name)) as [c|] eqn:Hc.
    + destruct (Z.gtb_spec (expires c) now) as [Hlt|Hle]; [discriminate|].
      rewrite Hrow. simpl. discriminate.
    + rewrite Hrow. simpl. discriminate.
Qed.

(** X1.  Create, then get.  On a table with unique user names, when
    [create_user] returns an id it is the one it was given, the table
    has one more row, built from [user_data] with the defaults of the
    source and the hash of the password, and [get_user_by_username] for
    the new name, at the same time or later, answers with that row. *)
Theorem create_user_round_trip user_data user_id salt now now' s created s' :
  NoDup (List.map username (users s)) ->
  create_user user_data user_id salt now s = (Return (Some created), s') ->
  now <= now' ->
  created = user_id
  /\ exists name mail password hash,
       cu_username user_data = Some name /\ cu_email user_data = Some mail
       /\ cu_password user_data = Some password /\ hashpw password salt = Some hash
       /\ users s' = users s ++ [created_row user_data user_id name mail hash now]
       /\ (get_user_by_username name now' s').1
          = Return (Some (user_data_of (created_row user_data user_id name mail hash now))).
Proof.
  intros Hnd Hcreate Hle. unfold create_user in Hcreate.
  destruct (cu_username user_data) as [name|]; [|svc; discriminate].
  destruct (cu_email user_data) as [mail|]; [|svc; discriminate].
  destruct (cu_password user_data) as [password|]; [|svc; discriminate].
  unfold try_ in Hcreate. unfold bind at 1 in Hcreate.
  destruct (get_user_by_username_total name now s) as (r & s1 & Hget & _).
  rewrite Hget in Hcreate. destruct r as [existing|]; [svc; discriminate|].
  apply (get_user_by_username_none name now s s1 Hnd) in Hget as (-> & Hc & Hrow).
  unfold _hash_password, _log_auth_event, bind, ret, lift, modify, raise in Hcreate.
  destruct (hashpw password salt) as [hash|] eqn:Hh; [|discriminate].
  simpl in Hcreate. injection Hcreate as <- <-.
  split; [reflexivity|]. exists name, mail, password, hash.
  do 3 (split; [reflexivity|]). split; [exact Hh|]. split; [reflexivity|].
  erewrite get_user_by_username_miss; [reflexivity| |].
  - simpl. intros c Hcc. specialize (Hc c Hcc). lia.
  - simpl. rewrite List.filter_app, Hrow. simpl.
    unfold by_username. simpl. by rewrite String.eqb_refl.
Qed.


Lemma get_user_by_username_none_state name now s s' :
  get_user_by_username name now s = (Return None, s') -> s' = s.
Proof.
  unfold get_user_by_username, cache_probe, load_user, select_where. svc.
  destruct (_user_cache s !! ("username:" +:+ name)) as [c|];
    [destruct (expires c >? now); [discriminate|]|];
    destruct (scalar_one_or_none _) as [[r|]|e]; simpl; congruence.
Qed.

(** [create_user] either writes nothing but the cache, or appends the
    row, the audit row and the metrics. *)
Lemma create_user_cases user_data user_id salt now s :
  (exists s', create_user user_data user_id salt now s = (Return None, s')
              /\ same_tables s s')
  \/ (exists name mail password hash,
        cu_username user_data = Some name /\ cu_email user_data = Some mail
        /\ cu_password user_data = Some password /\ hashpw password salt = Some hash
        /\ get_user_by_username name now s = (Return None, s)
        /\ create_user user_data user_id salt now s
           = (Return (Some user_id),
              mkState (users s ++ [created_row user_data user_id name mail hash now])
                (audit_log s ++ [mkAudit (Some user_id) "user_created" true
                                   [("username", JStr name)] now])
                (_user_cache s)
                (mkMetrics (total_users (metrics s) + 1)
                   (if default true (cu_is_active user_data)
                    then active_users (metrics s) + 1 else active_users (metrics s))
                   (locked_users (metrics s)) (failed_attempts_today (metrics s))
                   (successful_logins_today (metrics s))))).
Proof.
  unfold create_user.
  destruct (cu_username user_data) as [name|];
    [|left; exists s; split; [reflexivity | by repeat split]].
  destruct (cu_email user_data) as [mail|];
    [|left; exists s; split; [reflexivity | by repeat split]].
  destruct (cu_password user_data) as [password|];
    [|left; exists s; split; [reflexivity | by repeat split]].
  unfold try_. unfold bind at 1.
  destruct (get_user_by_username_total name now s) as (r & s1 & Hget & Hsame).
  rewrite Hget. destruct r as [existing|].
  { left. exists s1. split; [reflexivity | exact Hsame]. }
  pose proof (get_user_by_username_none_state _ _ _ _ Hget) as ->.
  unfold _hash_password, _log_auth_event, bind, ret, lift, modify, raise.
  destruct (hashpw password salt) as [hash|] eqn:Hh.
  - right. exists name, mail, password, hash.
    do 3 (split; [reflexivity|]). split; [exact Hh|]. split; [exact Hget|].
    unfold try_, bind. rewrite Hget. reflexivity.
  - left. exists s. split; [reflexivity | by repeat split].
Qed.

(** X2.  [create_user] is all or nothing.  Either it returns [None] and
    neither table nor the metrics have changed, or it returns the id it
    was given, the table has exactly one more row, with this id and the
    requested name, the audit table has one more row, [user_created],
    and the cache is as it was. *)
Theorem create_user_all_or_nothing user_data user_id salt now s :
  let '(r, s') := create_user user_data user_id salt now s in
  (r = Return None /\ same_tables s s')
  \/ (r = Return (Some user_id)
      /\ exists row,
           users s' = users s ++ [row] /\ id row = user_id
           /\ Some (username row) = cu_username user_data
           /\ audit_log s' = audit_log s
                ++ [mkAudit (Some user_id) "user_created" true
                      [("username", JStr (username row))] now]
           /\ _user_cache s' = _user_cache s).
Proof.
  destruct (create_user_cases user_data user_id salt now s)
    as [(s' & -> & Hsame)|(name & mail & password & hash & Hn & _ & _ & _ & _ & ->)].
  - by left.
  - right. split; [reflexivity|]. eexists. rewrite Hn. by repeat split.
Qed.

(** X3.  User names stay unique.  On a table with unique user names,
    [create_user] leaves the names unique, and a request for a name
    that a row already has returns [None] and leaves the table as it
    is. *)
Theorem create_user_keeps_usernames_unique user_data user_id salt now s :
  NoDup (List.map username (users s)) ->
  let '(r, s') := create_user user_data user_id salt now s in
  NoDup (List.map username (users s'))
  /\ forall a, a ∈ users s -> cu_username user_data = Some (username a) ->
       r = Return None /\ users s' = users s.
Proof.
  intros Hnd.
  destruct (create_user_cases user_data user_id salt now s)
    as [(s' & -> & Hu & _)|(name & mail & password & hash & Hn & _ & _ & _ & Hget & ->)].
  - rewrite Hu. split; [exact Hnd | by intros].
  - apply (get_user_by_username_none name now s s Hnd) in Hget as (_ & _ & Hrow).
    assert (Hfresh : forall a, a ∈ users s -> username a <> name).
    { intros a Ha Hname.
      assert (Hin : In a (List.filter (by_username name) (users s))).
      { apply filter_In. split; [by apply list_elem_of_In|].
        unfold by_username. rewrite Hname. apply String.eqb_refl. }
      rewrite Hrow in Hin. destruct Hin. }
    split.
    + simpl. rewrite List.map_app. simpl. apply NoDup_app. split; [exact Hnd|].
      split; [|apply NoDup_singleton].
      intros n Hin Hn'. apply list_elem_of_singleton in Hn'. subst n.
      apply list_elem_of_In, in_map_iff in Hin as (b & Hb & Hin).
      apply (Hfresh b); [by apply list_elem_of_In | exact Hb].
    + intros a Ha Heq. rewrite Hn in Heq. injection Heq as Heq.
      exfalso. by apply (Hfresh a Ha).
Qed.

(** ** Deleting *)

Lemma rowcount_positive (p : UserModel -> bool) (rows : list UserModel) :
  (0 <? List.length (List.filter p rows))%nat = existsb p rows.
Proof.
  induction rows as [|r rows IH]; simpl; [reflexivity|].
  destruct (p r); simpl; [reflexivity | exact IH].
Qed.

Lemma filter_filter_negb (p : UserModel -> bool) (rows : list UserModel) :
  List.filter p (List.filter (fun r => negb (p r)) rows) = [].
Proof.
  induction rows as [|r rows IH]; simpl; [reflexivity|].
  destruct (p r) eqn:E; simpl; [exact IH | by rewrite E].
Qed.

(** X4.  [delete_user] answers whether a row had the id, removes every
    such row and no other, and after a deletion [get_user_by_id] for
    the id answers [None], at any time. *)
Theorem delete_user_removes user_id now s :
  let '(r, s') := delete_user user_id now s in
  r = Return (existsb (by_id user_id) (users s))
  /\ users s' = List.filter (fun a => negb (by_id user_id a)) (users s)
  /\ (existsb (by_id user_id) (users s) = true ->
      forall now', (get_user_by_id user_id now' s').1 = Return None).
Proof.
  unfold delete_user, delete_where, _invalidate_user_cache, _log_auth_event.
  unfold try_, bind, gets, modify, ret. simpl.
  rewrite rowcount_positive.
  destruct (existsb (by_id user_id) (users s)); simpl.
  - repeat split. intros _ now'.
    unfold get_user_by_id, cache_probe, load_user, select_where.
    unfold try_, bind, gets, modify, ret, lift. simpl.
    rewrite invalidate_drops_user_id_entry. unfold set_metrics. simpl.
    rewrite filter_filter_negb. reflexivity.
  - repeat split. discriminate.
Qed.


(** ** Updating *)

Lemma update_user_eq user_id update_data now s :
  update_user user_id update_data now s =
  match update_fields update_data with
  | [] => (Return None, s)
  | _ =>
      match List.filter (by_id user_id) (users s) with
      | [_] => get_user_by_id user_id now (updated_state user_id update_data now s)
      | _ => (Return None, s)
      end
  end.
Proof.
  unfold update_user, updated_state.
  destruct (update_fields update_data) as [|f fs] eqn:Hf; [reflexivity|].
  unfold select_where, update_where, _invalidate_user_cache, _log_auth_event.
  unfold try_, bind, gets, modify, ret, lift.
  destruct (List.filter (by_id user_id) (users s)) as [|r [|r' l]]; try reflexivity.
  cbn -[get_user_by_id invalidate].
  match goal with
  | |- context [get_user_by_id user_id now ?s1] =>
      destruct (get_user_by_id_total user_id now s1) as (r1 & s2 & -> & _)
  end.
  reflexivity.
Qed.

Lemma update_user_users user_id update_data now s :
  users (update_user user_id update_data now s).2 = users s
  \/ users (update_user user_id update_data now s).2
     = List.map (fun r => if by_id user_id r then values_update update_data now r else r)
         (users s).
Proof.
  rewrite update_user_eq.
  destruct (update_fields update_data) as [|f fs]; [by left|].
  destruct (List.filter (by_id user_id) (users s)) as [|r [|r' l]]; try by left.
  match goal with
  | |- context [get_user_by_id user_id now ?s1] =>
      destruct (get_user_by_id_total user_id now s1) as (r1 & s2 & -> & Hu & _)
  end.
  right. simpl. rewrite Hu. reflexivity.
Qed.

(** X5.  [update_user] cannot reach the credentials: whatever
    [update_data] holds, the id, the name, the password hash, the
    failed attempts, the lock, the last login and the creation time of
    every row are as before, and a row with another id is untouched. *)
Theorem update_user_spares_credentials user_id update_data now s :
  let s' := (update_user user_id update_data now s).2 in
  List.map protected_columns (users s') = List.map protected_columns (users s)
  /\ forall i r, users s !! i = Some r -> id r <> user_id -> users s' !! i = Some r.
Proof.
  intros s'. subst s'.
  destruct (update_user_users user_id update_data now s) as [->| ->]; [done|].
  split.
  - rewrite List.map_map. apply List.map_ext. intros r.
    by destruct (by_id user_id r).
  - intros i r Hi Hne. rewrite list_lookup_fmap, Hi. simpl.
    assert (Hb : by_id user_id r = false) by (by apply String.eqb_neq).
    by rewrite Hb.
Qed.

Lemma filter_by_id_map user_id (f : UserModel -> UserModel) (rows : list UserModel) :
  (forall r, id (f r) = id r) ->
  List.filter (by_id user_id)
    (List.map (fun r => if by_id user_id r then f r else r) rows)
  = List.map f (List.filter (by_id user_id) rows).
Proof.
  intros Hid. induction rows as [|r rows IH]; simpl; [reflexivity|].
  destruct (by_id user_id r) eqn:E; simpl.
  - unfold by_id at 1. rewrite Hid. fold (by_id user_id r). rewrite E. simpl.
    by rewrite IH.
  - rewrite E. exact IH.
Qed.

(** After a mutation of the rows with this id, the getter by id reads
    the table. *)
Lemma get_user_by_id_after_invalidate user_id now rows audit cache m r :
  List.filter (by_id user_id) rows = [r] ->
  (get_user_by_id user_id now (mkState rows audit (invalidate user_id cache) m)).1
  = Return (Some (user_data_of r)).
Proof.
  intros Hrow. unfold get_user_by_id, cache_probe, load_user, select_where.
  unfold try_, bind, gets, modify, ret, lift. cbn -[invalidate].
  rewrite invalidate_drops_user_id_entry. cbn. rewrite Hrow. reflexivity.
Qed.

(** X6.  [update_user] returns what it wrote: for the one row with the
    id and an update with at least one allowed key, the result is the
    record of the updated row, read back from the table. *)
Theorem update_user_returns_updated_record user_id update_data now s r :
  List.filter (by_id user_id) (users s) = [r] ->
  update_fields update_data <> [] ->
  (update_user user_id update_data now s).1
  = Return (Some (user_data_of (values_update update_data now r))).
Proof.
  intros Hrow Hne. rewrite update_user_eq, Hrow.
  destruct (update_fields update_data) as [|f fs] eqn:Hf; [done|].
  unfold updated_state. apply get_user_by_id_after_invalidate.
  rewrite filter_by_id_map, Hrow by done. reflexivity.
Qed.

(** X7.  An update without any allowed key, or for an id no row has,
    returns [None] and changes nothing at all: no row, no audit row, no
    cache entry. *)
Theorem update_user_without_effect user_id update_data now s :
  update_fields update_data = [] \/ List.filter (by_id user_id) (users s) = [] ->
  update_user user_id update_data now s = (Return None, s).
Proof.
  intros [Hempty|Hrow]; rewrite update_user_eq.
  - by rewrite Hempty.
  - rewrite Hrow. by destruct (update_fields update_data).
Qed.


(** ** Password change, read by id *)

Lemma change_password_eq user_id new_password salt now s :
  change_password user_id new_password salt now s =
  match hashpw new_password salt with
  | None => (Return false, s)
  | Some hash =>
      if existsb (by_id user_id) (users s) then
        (Return true,
         mkState
           (List.map (fun r => if by_id user_id r then values_password hash now r else r)
              (users s))
           (audit_log s ++ [mkAudit (Some user_id) "password_changed" true [] now])
           (invalidate user_id (_user_cache s)) (metrics s))
      else
        (Return false,
         mkState
           (List.map (fun r => if by_id user_id r then values_password hash now r else r)
              (users s))
           (audit_log s) (_user_cache s) (metrics s))
  end.
Proof.
  unfold change_password, _hash_password, update_where, _invalidate_user_cache,
    _log_auth_event.
  unfold try_, bind, gets, modify, ret, lift.
  destruct (hashpw new_password salt) as [hash|]; [|reflexivity].
  cbn -[invalidate Nat.ltb]. rewrite rowcount_positive.
  by destruct (existsb (by_id user_id) (users s)).
Qed.

Lemma map_no_match (p : UserModel -> bool) (f : UserModel -> UserModel)
  (rows : list UserModel) :
  existsb p rows = false -> List.map (fun r => if p r then f r else r) rows = rows.
Proof.
  induction rows as [|r rows IH]; simpl; [reflexivity|].
  destruct (p r); simpl; [discriminate|]. intros H. by rewrite IH.
Qed.

(** X8.  Change the password, then verify by id.  For the one row with
    the id, a sound hasher and a password it accepts, [change_password]
    succeeds, and from then on [verify_password] accepts exactly the new
    password, at any time and whatever the cache held. *)
Theorem change_password_round_trip_by_id {sound : BcryptSound bcrypt}
  user_id new_password salt now s r :
  List.filter (by_id user_id) (users s) = [r] ->
  is_Some (hashpw new_password salt) ->
  exists s1,
    change_password user_id new_password salt now s = (Return true, s1)
    /\ forall password now',
         (verify_password user_id password now' s1).1
         = Return (bool_decide (password = new_password)).
Proof.
  intros Hrow [hash Hh]. rewrite change_password_eq, Hh.
  assert (Hex : existsb (by_id user_id) (users s) = true).
  { rewrite <- rowcount_positive, Hrow. reflexivity. }
  rewrite Hex. eexists. split; [reflexivity|]. intros password now'.
  unfold verify_password. unfold try_ at 1. unfold bind at 1.
  pose proof (get_user_by_id_after_invalidate user_id now'
                (List.map (fun r0 => if by_id user_id r0
                                     then values_password hash now r0 else r0) (users s))
                (audit_log s ++ [mkAudit (Some user_id) "password_changed" true [] now])
                (_user_cache s) (metrics s) (values_password hash now r)) as H.
  rewrite filter_by_id_map, Hrow in H by done. specialize (H eq_refl).
  destruct (get_user_by_id _ _ _) as [o s2]. simpl in H. subst o. simpl.
  unfold ret, _verify_password. by rewrite (checkpw_hashpw _ _ _ _ Hh).
Qed.

(** X9.  [change_password] for an id no row has, or with a password the
    hasher refuses, returns [False] and leaves rows, audit table, cache
    and metrics as they were. *)
Theorem change_password_without_effect user_id new_password salt now s :
  hashpw new_password salt = None \/ existsb (by_id user_id) (users s) = false ->
  exists s',
    change_password user_id new_password salt now s = (Return false, s')
    /\ users s' = users s /\ audit_log s' = audit_log s
    /\ _user_cache s' = _user_cache s /\ metrics s' = metrics s.
Proof.
  intros H. rewrite change_password_eq.
  destruct (hashpw new_password salt) as [hash|]; [|by eexists].
  destruct H as [H|H]; [discriminate|]. rewrite H. eexists. split; [reflexivity|].
  simpl. by rewrite map_no_match.
Qed.


(** ** Authentication, case by case *)

Section WithConfig.

Variable config : AuthServiceConfig.

Lemma authenticate_user_cases name password now s :
  exists o s1 s',
    get_user_by_username name now s = (Return o, s1)
    /\ authenticate_user config name password now s
       = (Return (verdict o password now), s')
    /\ audit_log s' = audit_log s ++ [verdict_audit o name password now]
    /\ (turned_away o now = true -> users s' = users s).
Proof.
  destruct (get_user_by_username_total name now s) as (o & s1 & Hget & Hu & Ha & Hm).
  exists o, s1. unfold authenticate_user. unfold try_ at 1. unfold bind at 1.
  rewrite Hget. unfold verdict, verdict_audit, turned_away.
  destruct o as [u|].
  - destruct (is_active u); simpl.
    + destruct (is_locked_at u now); simpl.
      * unfold _log_auth_event. svc. eexists. split; [reflexivity|].
        split; [reflexivity|]. split; [by rewrite Ha | by rewrite Hu].
      * destruct (_verify_password password (password_hash u)); simpl.
        -- unfold _reset_failed_attempts, _update_last_login, update_where,
             _invalidate_user_cache, _log_auth_event.
           svc. eexists. split; [reflexivity|]. split; [reflexivity|].
           split; [by rewrite Ha | discriminate].
        -- unfold _handle_failed_login, update_where, _invalidate_user_cache,
             _log_auth_event.
           svc. eexists. split; [reflexivity|]. split; [reflexivity|].
           split; [by rewrite Ha | discriminate].
    + unfold _log_auth_event. svc. eexists. split; [reflexivity|].
      split; [reflexivity|]. split; [by rewrite Ha | by rewrite Hu].
  - unfold _log_auth_event. svc. eexists. split; [reflexivity|].
    split; [reflexivity|]. split; [by rewrite Ha | by rewrite Hu].
Qed.



(** X10.  A user that [authenticate_user] returns is the record
    [get_user_by_username] answers with, is active, is not locked at the
    time of the call, and carries a hash the password verifies
    against. *)
Theorem authenticate_user_sound name password now s u s' :
  authenticate_user config name password now s = (Return (Some u), s') ->
  (get_user_by_username name now s).1 = Return (Some u)
  /\ is_active u = true /\ is_locked_at u now = false
  /\ _verify_password password (password_hash u) = true.
Proof.
  intros Hauth.
  destruct (authenticate_user_cases name password now s)
    as (o & s1 & s2 & Hget & Hcase & _).
  rewrite Hcase in Hauth. injection Hauth as Hv _. rewrite Hget. simpl.
  unfold verdict in Hv. destruct o as [u'|]; [|discriminate].
  destruct (is_active u') eqn:Hact, (is_locked_at u' now) eqn:Hlock,
    (_verify_password password (password_hash u')) eqn:Hpw; simpl in Hv;
    try discriminate.
  injection Hv as <-. by repeat split.
Qed.

(** X11.  Every call of [authenticate_user] appends exactly one audit
    row, stamped with the time of the call: [login_success] with
    [success] set when a user is returned, [login_failed] with a reason
    otherwise. *)
Theorem authenticate_user_audits_once name password now s :
  let '(r, s') := authenticate_user config name password now s in
  exists a,
    audit_log s' = audit_log s ++ [a]
    /\ audit_created_at a = now
    /\ success a = authenticated r
    /\ event_type a = (if authenticated r then "login_success" else "login_failed")
    /\ (authenticated r = false ->
        exists reason, assoc "reason" (audit_metadata a) = Some (JStr reason)).
Proof.
  destruct (authenticate_user_cases name password now s)
    as (o & s1 & s2 & _ & -> & Ha & _).
  exists (verdict_audit o name password now). split; [exact Ha|].
  unfold verdict_audit, verdict. destruct o as [u|]; simpl.
  - destruct (is_active u), (is_locked_at u now),
      (_verify_password password (password_hash u)); simpl; repeat split;
      first [discriminate | intros _; by eexists].
  - repeat split. intros _. by eexists.
Qed.

(** X12.  When the record read for the name is missing, inactive or
    locked, [authenticate_user] returns [None] for every password, with
    the reason [user_not_found], [account_inactive] or [account_locked],
    and writes to no row: the failed attempts are not counted. *)
Theorem unusable_account_is_turned_away name now s o s1 :
  get_user_by_username name now s = (Return o, s1) ->
  turned_away o now = true ->
  forall password,
    let '(r, s') := authenticate_user config name password now s in
    r = Return None /\ users s' = users s
    /\ last (List.map (fun a => assoc "reason" (audit_metadata a)) (audit_log s'))
       = Some (Some (JStr match o with
                          | None => "user_not_found"
                          | Some u => if is_active u then "account_locked"
                                      else "account_inactive"
                          end)).
Proof.
  intros Hget Hturned password.
  destruct (authenticate_user_cases name password now s)
    as (o' & s1' & s2 & Hget' & -> & Ha & Hkeep).
  rewrite Hget in Hget'. injection Hget' as <- <-.
  split; [|split; [by apply Hkeep|]].
  - unfold verdict. destruct o as [u|]; [|reflexivity]. simpl in Hturned.
    destruct (is_active u), (is_locked_at u now); simpl in *; done.
  - rewrite Ha, List.map_app. simpl. rewrite last_snoc. unfold verdict_audit.
    destruct o as [u|]; [|reflexivity]. simpl in Hturned.
    destruct (is_active u), (is_locked_at u now); simpl in *; done.
Qed.

(** X13.  With no fresh cache entry for the name, a wrong password for
    the one usable row of the name adds one to its failed attempts and
    sets the lock to now plus the lockout duration exactly when the new
    count reaches [max_failed_attempts]; below the limit the lock is set
    to NULL. *)
Theorem failed_attempt_counts_and_locks name password now s r :
  (forall c, _user_cache s !! ("username:" +:+ name) = Some c -> expires c <= now) ->
  List.filter (by_username name) (users s) = [r] ->
  is_active r = true -> is_locked_at r now = false ->
  _verify_password password (password_hash r) = false ->
  let '(result, s') := authenticate_user config name password now s in
  result = Return None
  /\ List.filter (by_username name) (users s')
     = [values_attempts (failed_login_attempts r + 1)
          (if failed_login_attempts r + 1 >=? max_failed_attempts config
           then Some (now + lockout_duration config) else None) now r].
Proof.
  intros Hc Hrow Hact Hlock Hpw.
  destruct (authenticate_user_row config name password now s r Hc Hrow Hact Hlock)
    as (s' & -> & _ & Hfail).
  rewrite Hpw. split; [reflexivity|].
  destruct (Hfail Hpw) as [-> _].
  rewrite filter_map_preserving.
  - rewrite Hrow. simpl. unfold by_id. by rewrite String.eqb_refl.
  - intros r'. by destruct (by_id (id r) r').
Qed.

(** X14.  The lock ends at [locked_until].  With no fresh cache entry,
    an active row locked until [t] is turned away while [t > now]; from
    [t] on the call is decided by the password alone. *)
Theorem lock_ends_at_locked_until name password now s r t :
  (forall c, _user_cache s !! ("username:" +:+ name) = Some c -> expires c <= now) ->
  List.filter (by_username name) (users s) = [r] ->
  is_active r = true -> locked_until r = Some t ->
  (authenticate_user config name password now s).1
  = Return (if t >? now then None
            else if _verify_password password (password_hash r)
                 then Some (user_data_of r) else None).
Proof.
  intros Hc Hrow Hact Hlock.
  destruct (Z.gtb_spec t now) as [Hgt|Hle].
  - destruct (authenticate_user_locked_row config name password now s r t
                Hc Hrow Hact Hlock) as (s' & -> & _); [lia | reflexivity].
  - assert (Hfree : is_locked_at r now = false).
    { unfold is_locked_at. rewrite Hlock. destruct (Z.gtb_spec t now); [lia | done]. }
    destruct (authenticate_user_row config name password now s r Hc Hrow Hact Hfree)
      as (s' & -> & _). reflexivity.
Qed.
End WithConfig.

(** ** The cache *)

Lemma string_app_assoc (a b c : string) : (a +:+ b) +:+ c = a +:+ (b +:+ c).
Proof.
  induction a as [|x a IH]; [reflexivity|].
  change ((String x a +:+ b) +:+ c) with (String x ((a +:+ b) +:+ c)).
  change (String x a +:+ (b +:+ c)) with (String x (a +:+ (b +:+ c))).
  by rewrite IH.
Qed.

Lemma rev_app_acc (s acc : string) : String.rev_app s acc = String.rev s +:+ acc.
Proof.
  unfold String.rev. revert acc.
  induction s as [|c s IH]; intros acc; [reflexivity|].
  change (String.rev_app (String c s) acc) with (String.rev_app s (String c acc)).
  change (String.rev_app (String c s) "") with (String.rev_app s (String c "")).
  rewrite IH, (IH (String c "")), string_app_assoc. reflexivity.
Qed.

Lemma rev_app_distr (a b : string) :
  String.rev (a +:+ b) = String.rev b +:+ String.rev a.
Proof.
  unfold String.rev at 1. change (String.rev a) with (String.rev_app a "").
  generalize "". induction a as [|c a IH]; intros acc.
  - change ("" +:+ b) with b. apply rev_app_acc.
  - change (String c a +:+ b) with (String c (a +:+ b)).
    change (String.rev_app (String c (a +:+ b)) acc)
      with (String.rev_app (a +:+ b) (String c acc)).
    change (String.rev_app (String c a) acc) with (String.rev_app a (String c acc)).
    apply IH.
Qed.

Lemma endswith_app (pre p : string) : endswith (pre +:+ p) p = true.
Proof. unfold endswith. rewrite rev_app_distr. apply prefix_app. Qed.

(** X15.  [_invalidate_user_cache] for an id removes more than that
    user's own entry: every key [user_id:<id><suffix>], so the entries
    of users whose id starts with the id, and every key that ends in
    [:<id>].  A key that neither starts nor ends that way keeps its
    entry. *)
Theorem invalidate_reaches_further user_id (cache : gmap string CacheEntry) :
  (forall suffix, invalidate user_id cache !! ("user_id:" +:+ user_id +:+ suffix) = None)
  /\ (forall pre, invalidate user_id cache !! (pre +:+ ":" +:+ user_id) = None)
  /\ (forall key,
        startswith key ("user_id:" +:+ user_id) = false ->
        endswith key (":" +:+ user_id) = false ->
        invalidate user_id cache !! key = cache !! key).
Proof.
  split; [|split].
  - intros suffix. rewrite invalidate_lookup. unfold cache_key_matches, startswith.
    rewrite <- (string_app_assoc "user_id:" user_id suffix).
    by rewrite prefix_app.
  - intros pre. rewrite invalidate_lookup. unfold cache_key_matches.
    by rewrite endswith_app, orb_true_r.
  - intros key Hs He. rewrite invalidate_lookup. unfold cache_key_matches.
    by rewrite Hs, He.
Qed.

(** ** The user counter *)

(** X16.  [metrics["total_users"]] follows the table: [create_user]
    changes the counter by as much as the number of rows, always, and
    so does [delete_user] when at most one row has the id. *)
Theorem total_users_follows_the_table user_data user_id salt now s :
  total_users_drift (create_user user_data user_id salt now s).2 = total_users_drift s
  /\ ((List.length (List.filter (by_id user_id) (users s)) <= 1)%nat ->
      total_users_drift (delete_user user_id now s).2 = total_users_drift s).
Proof.
  unfold total_users_drift. split.
  - destruct (create_user_cases user_data user_id salt now s)
      as [(s' & -> & Hu & _ & Hm)|(name & mail & password & hash & _ & _ & _ & _ & _ & ->)].
    + simpl. by rewrite Hu, Hm.
    + simpl. rewrite List.length_app. simpl. lia.
  - intros Hone.
    unfold delete_user, delete_where, _invalidate_user_cache, _log_auth_event.
    unfold try_, bind, gets, modify, ret. simpl.
    pose proof (List.filter_length (by_id user_id) (users s)) as Hlen.
    destruct (List.filter (by_id user_id) (users s)) as [|r [|r' l]] eqn:E; simpl in *.
    + assert (Hsame : List.filter (fun a => negb (by_id user_id a)) (users s) = users s).
      { clear Hlen Hone. induction (users s) as [|a rows IH]; simpl in *; [done|].
        destruct (by_id user_id a); simpl in *; [discriminate|]. by rewrite IH. }
      by rewrite Hsame.
    + unfold set_metrics. simpl. unfold compose in Hlen. lia.
    + lia.
Qed.
End MoreUserService.

(** ** Instances *)

Lemma create_user_round_trip_witness :
  let s := Fixtures.cold 0 in
  let bob := MoreFixtures.new_user "bob" in
  let s' := (UserService.create_user bob "u2" "salt" 5 s).2 in
  UserService.create_user bob "u2" "salt" 5 s = (Return (Some "u2"), s')
  /\ (UserService.get_user_by_username "bob" 9 s').1
     = Return (Some (UserService.user_data_of
                       (created_row bob "u2" "bob" "bob@example.org" "$2b$hunter2" 5))).
Proof.
  intros s bob s'.
  assert (Hcreate : UserService.create_user bob "u2" "salt" 5 s = (Return (Some "u2"), s'))
    by (vm_compute; reflexivity).
  split; [exact Hcreate|].
  assert (Hnodup : NoDup (List.map UserService.username (UserService.users s)))
    by apply NoDup_singleton.
  assert (Hlater : 5 <= 9) by lia.
  destruct (create_user_round_trip bob "u2" "salt" 5 9 s "u2" s' Hnodup Hcreate Hlater)
    as (_ & name & mail & password & hash & [= <-] & [= <-] & [= <-] & [= <-] & _ & Hget).
  exact Hget.
Defined.

Lemma create_user_keeps_usernames_unique_witness :
  let s := Fixtures.cold 0 in
  (UserService.create_user (MoreFixtures.new_user "alice") "u2" "salt" 5 s).1 = Return None
  /\ NoDup (List.map UserService.username
              (UserService.users
                 (UserService.create_user (MoreFixtures.new_user "alice") "u2" "salt" 5 s).2)).
Proof.
  intros s.
  assert (Hnodup : NoDup (List.map UserService.username (UserService.users s)))
    by apply NoDup_singleton.
  pose proof (create_user_keeps_usernames_unique (MoreFixtures.new_user "alice") "u2"
                "salt" 5 s Hnodup) as H.
  destruct (UserService.create_user (MoreFixtures.new_user "alice") "u2" "salt" 5 s)
    as [r s'].
  destruct H as [Hkept Hsame]. split; [|exact Hkept].
  apply (Hsame (Fixtures.alice 0)); [left | reflexivity].
Defined.

Lemma update_user_returns_updated_record_witness :
  (UserService.update_user "u1" MoreFixtures.rename 9 (Fixtures.cold 0)).1
  = Return (Some (UserService.user_data_of
                    (UserService.values_update MoreFixtures.rename 9 (Fixtures.alice 0)))).
Proof.
  apply update_user_returns_updated_record; [reflexivity | discriminate].
Defined.

Lemma update_user_without_effect_witness :
  UserService.update_user "u1" MoreFixtures.no_update 9 (Fixtures.cold 0)
  = (Return None, Fixtures.cold 0)
  /\ UserService.update_user "nobody" MoreFixtures.rename 9 (Fixtures.cold 0)
     = (Return None, Fixtures.cold 0).
Proof.
  split; apply update_user_without_effect; [left | right]; reflexivity.
Defined.

Lemma change_password_round_trip_by_id_witness :
  exists s1,
    UserService.change_password "u1" "correct horse" "salt" 9 (Fixtures.cold 0)
    = (Return true, s1)
    /\ (UserService.verify_password "u1" "correct horse" 20 s1).1 = Return true
    /\ (UserService.verify_password "u1" "secret" 20 s1).1 = Return false.
Proof.
  destruct (change_password_round_trip_by_id (sound := plain_bcrypt_sound)
              "u1" "correct horse" "salt" 9 (Fixtures.cold 0) (Fixtures.alice 0))
    as (s1 & Hchange & Hverify); [reflexivity | by eexists |].
  exists s1. split; [exact Hchange|].
  split; rewrite Hverify; reflexivity.
Defined.

Lemma change_password_without_effect_witness :
  exists s',
    UserService.change_password "nobody" "correct horse" "salt" 9 (Fixtures.cold 0)
    = (Return false, s')
    /\ UserService.users s' = UserService.users (Fixtures.cold 0)
    /\ UserService.audit_log s' = UserService.audit_log (Fixtures.cold 0)
    /\ UserService._user_cache s' = UserService._user_cache (Fixtures.cold 0)
    /\ UserService.metrics s' = UserService.metrics (Fixtures.cold 0).
Proof.
  apply change_password_without_effect. right. reflexivity.
Defined.

Lemma authenticate_user_sound_witness :
  let u := UserService.user_data_of (Fixtures.alice 0) in
  (UserService.get_user_by_username "alice" 7 (Fixtures.cold 0)).1 = Return (Some u)
  /\ UserService.is_active u = true /\ UserService.is_locked_at u 7 = false
  /\ UserService._verify_password "secret" (UserService.password_hash u) = true.
Proof.
  intros u.
  apply (authenticate_user_sound Fixtures.config5 "alice" "secret" 7 (Fixtures.cold 0) u
           (UserService.authenticate_user Fixtures.config5 "alice" "secret" 7
              (Fixtures.cold 0)).2).
  vm_compute. reflexivity.
Defined.

Lemma unusable_account_is_turned_away_witness :
  let s := MoreFixtures.locked 1000 in
  (UserService.authenticate_user Fixtures.config5 "alice" "secret" 7 s).1 = Return None
  /\ UserService.users (UserService.authenticate_user Fixtures.config5 "alice" "secret" 7 s).2
     = UserService.users s.
Proof.
  intros s.
  assert (Hget : UserService.get_user_by_username "alice" 7 s
                 = (Return (Some (UserService.user_data_of (MoreFixtures.locked_alice 1000))),
                    (UserService.get_user_by_username "alice" 7 s).2))
    by (vm_compute; reflexivity).
  pose proof (unusable_account_is_turned_away Fixtures.config5 "alice" 7 s _ _ Hget
                eq_refl "secret") as H.
  destruct (UserService.authenticate_user Fixtures.config5 "alice" "secret" 7 s) as [r s'].
  destruct H as (Hr & Hu & _). by split.
Defined.

Lemma failed_attempt_counts_and_locks_witness :
  let s' := (UserService.authenticate_user Fixtures.config5 "alice" "wrong" 100
               (Fixtures.cold 4)).2 in
  List.map (fun r => (UserService.failed_login_attempts r, UserService.locked_until r))
    (List.filter (UserService.by_username "alice") (UserService.users s'))
  = [(5, Some 1900)].
Proof.
  intros s'. subst s'.
  assert (Hcold : forall c,
            UserService._user_cache (Fixtures.cold 4) !! ("username:" +:+ "alice") = Some c ->
            UserService.expires c <= 100).
  { intros c Hc. simpl in Hc. rewrite lookup_empty in Hc. discriminate Hc. }
  pose proof (failed_attempt_counts_and_locks Fixtures.config5 "alice" "wrong" 100
                (Fixtures.cold 4) (Fixtures.alice 4) Hcold eq_refl eq_refl eq_refl eq_refl)
    as H.
  destruct (UserService.authenticate_user Fixtures.config5 "alice" "wrong" 100
              (Fixtures.cold 4)) as [r s'].
  destruct H as [_ Hrow]. simpl. rewrite Hrow. reflexivity.
Defined.

Lemma lock_ends_at_locked_until_witness :
  let s := MoreFixtures.locked 1000 in
  (UserService.authenticate_user Fixtures.config5 "alice" "secret" 999 s).1 = Return None
  /\ (UserService.authenticate_user Fixtures.config5 "alice" "secret" 1000 s).1
     = Return (Some (UserService.user_data_of (MoreFixtures.locked_alice 1000))).
Proof.
  intros s.
  assert (Hcold : forall now c,
            UserService._user_cache s !! ("username:" +:+ "alice") = Some c ->
            UserService.expires c <= now).
  { intros now c Hc. simpl in Hc. rewrite lookup_empty in Hc. discriminate Hc. }
  split.
  - rewrite (lock_ends_at_locked_until Fixtures.config5 "alice" "secret" 999 s
               (MoreFixtures.locked_alice 1000) 1000 (Hcold 999) eq_refl eq_refl eq_refl).
    reflexivity.
  - rewrite (lock_ends_at_locked_until Fixtures.config5 "alice" "secret" 1000 s
               (MoreFixtures.locked_alice 1000) 1000 (Hcold 1000) eq_refl eq_refl eq_refl).
    reflexivity.
Defined.

(** ** The gateway *)

Section GatewayGatesFacts.
Import ApiGateway.

(** X17.  The gates of the gateway.  On the six handlers that check
    authentication, a request that the middleware does not accept is
    answered with 401 and the message of the middleware; on the three
    that check for an administrator, an accepted request that the
    authorization check does not pass is answered with 403.  In both
    cases the answer is the same whatever the forwarder would do. *)
Theorem gates_turn_requests_away app r request a :
  requires_authentication r = true ->
  authenticate_request app request = Return a ->
  (success a = false ->
   handler app r request = Raise (HTTPException 401 (error_message a)))
  /\ (success a = true ->
      forall resource action ctx z,
        admin_check r = Some (resource, action, ctx) ->
        check_authorization app (auth_user_id a) resource action ctx = Return z ->
        success z = false ->
        handler app r request = Raise (HTTPException 403 "Admin access required")).
Proof.
  intros Hr Ha. split.
  - intros Hs. destruct r; try discriminate Hr; simpl;
      unfold logout, get_current_user, update_current_user, list_policies, create_policy,
        query_audit_log, require_admin, require_authentication;
      rewrite Ha; simpl; rewrite Hs; reflexivity.
  - intros Hs resource action ctx z Hadmin Hz Hzs.
    destruct r; try discriminate Hadmin; injection Hadmin as <- <- <-; simpl;
      unfold list_policies, create_policy, query_audit_log, require_admin,
        require_authentication;
      rewrite Ha; simpl; rewrite Hs; simpl; rewrite Hz; simpl; rewrite Hzs; reflexivity.
Qed.

(** X18.  What becomes of the answer of the forwarder, for a request
    that passed the checks of its handler.  A response is handed to the
    client as it is.  An [HTTPException] keeps its status on the
    handlers that re-raise it and becomes a 500 on login, refresh,
    validate and status. *)
Theorem forwarder_answer_reaches_client app r request :
  admitted app r request ->
  (forall response,
     (forall f, forward_request app f = Return response) ->
     serve app r request = response)
  /\ (forall c d,
        (forall f, forward_request app f = Raise (HTTPException c d)) ->
        status_code (serve app r request) = if reraises r then c else 500).
Proof.
  intros Hadm. split.
  - intros response Hf. unfold serve.
    destruct r; simpl in Hadm; simpl;
      unfold login, logout, refresh_token, validate_token, get_current_user,
        update_current_user, authorize, authorize_bulk, authorize_batch_optimized,
        list_policies, create_policy, query_audit_log, get_authorization_status,
        proxy_request;
      try match type of Hadm with
          | _ = _ => rewrite Hadm
          | exists a, require_authentication _ _ = _ => destruct Hadm as [? ->]
          end; simpl; rewrite ?Hf; try reflexivity.
    destruct Hadm as [service Hadm].
    match goal with
    | |- context [proxy_target ?p] => destruct (proxy_target p) as [o service_path]
    end.
    simpl in Hadm. subst o. by rewrite Hf.
  - intros c d Hf. unfold serve.
    destruct r; simpl in Hadm; simpl;
      unfold login, logout, refresh_token, validate_token, get_current_user,
        update_current_user, authorize, authorize_bulk, authorize_batch_optimized,
        list_policies, create_policy, query_audit_log, get_authorization_status,
        proxy_request;
      try match type of Hadm with
          | _ = _ => rewrite Hadm
          | exists a, require_authentication _ _ = _ => destruct Hadm as [? ->]
          end; simpl; rewrite ?Hf; try reflexivity.
    destruct Hadm as [service Hadm].
    match goal with
    | |- context [proxy_target ?p] => destruct (proxy_target p) as [o service_path]
    end.
    simpl in Hadm. subst o. by rewrite Hf.
Qed.

(** X19.  Rate limiting.  On the three authorize handlers an
    [HTTPException] of the limiter, whatever its status, is the answer;
    the forwarder is not asked.  No other handler consults the limiter:
    its answer is the same with any limiter in its place. *)
Theorem rate_limit_reach app r request :
  (rate_limited r = true ->
   forall c d, check_rate_limit app request = Raise (HTTPException c d) ->
     serve app r request = http_exception_handler app request c d)
  /\ (rate_limited r = false ->
      forall limiter, handler (with_limiter app limiter) r request = handler app r request).
Proof.
  split.
  - intros Hr c d Hl. unfold serve.
    destruct r; try discriminate Hr; simpl;
      unfold authorize, authorize_bulk, authorize_batch_optimized;
      rewrite Hl; reflexivity.
  - intros Hr limiter. destruct r; try discriminate Hr; reflexivity.
Qed.

End GatewayGatesFacts.

Section GatewayRoutingFacts.
Import ApiGateway GatewayRouting.

Lemma proxy_method_allowed (m : string) :
  In m proxy_methods -> existsb (String.eqb m) proxy_methods = true.
Proof.
  intros Hin. apply existsb_exists. exists m. split; [exact Hin | apply String.eqb_refl].
Qed.

(** X20.  Requests on a single policy are not gated.  For every method
    of the proxy route and every policy id, the request for
    [/api/v1/authz/policies/<id>] is served by the generic proxy, which
    asks the authorization service for [/policies/<id>] with the method,
    headers and query of the request, and its body for POST, PUT and
    PATCH: neither the rate limiter, nor the authentication, nor the
    admin check is consulted. *)
Theorem policy_requests_bypass_the_gates app request policy_id :
  In (method request) proxy_methods ->
  dispatch (method request) ("/api/v1/authz/policies/" +:+ policy_id)
  = Some (Proxy ("authz/policies/" +:+ policy_id))
  /\ handler app (Proxy ("authz/policies/" +:+ policy_id)) request
     = try_reraise_http
         (forward_request app
            (mkForward "authorization" ("/policies/" +:+ policy_id) (method request)
               (headers request) (Some (query_params request))
               (if has_body (method request) then Some (body request) else None)))
         (fun _ => unavailable "Service unavailable").
Proof.
  intros Hm. split.
  - unfold dispatch.
    assert (Hnone : first_match (method request)
                      ("/api/v1/authz/policies/" +:+ policy_id) fixed_routes = None).
    { cbn. rewrite !andb_false_r. reflexivity. }
    rewrite Hnone, (proxy_method_allowed _ Hm). reflexivity.
  - change (handler app (Proxy ("authz/policies/" +:+ policy_id)) request)
      with (proxy_request app request ("authz/" +:+ ("policies/" +:+ policy_id))).
    unfold proxy_request.
    rewrite (proxy_target_authz ("policies/" +:+ policy_id)). reflexivity.
Qed.

End GatewayRoutingFacts.

(** ** Instances *)

Lemma gates_turn_requests_away_witness :
  ApiGateway.handler MoreFixtures.strangers_only ApiGateway.PutUsersMe
    (ApiGateway.mkRequest "PUT" "/api/v1/users/me" [] [] "{}")
  = Raise (HTTPException 401 "Invalid token").
Proof.
  apply (gates_turn_requests_away MoreFixtures.strangers_only ApiGateway.PutUsersMe
           (ApiGateway.mkRequest "PUT" "/api/v1/users/me" [] [] "{}")
           (ApiGateway.mkAuthResult false "" "Invalid token") eq_refl eq_refl).
  reflexivity.
Defined.

Lemma forwarder_answer_reaches_client_witness :
  let get := ApiGateway.mkRequest "GET" "/api/v1/auth/validate" [] [] "" in
  let teapot := Raise (HTTPException 418 "teapot") in
  ApiGateway.serve (MoreFixtures.in_front_of (Return (JSONResponse 204 JNull)))
    ApiGateway.GetUsersMe get = JSONResponse 204 JNull
  /\ status_code (ApiGateway.serve (MoreFixtures.in_front_of teapot)
                    ApiGateway.GetUsersMe get) = 418
  /\ status_code (ApiGateway.serve (MoreFixtures.in_front_of teapot)
                    ApiGateway.GetAuthValidate get) = 500.
Proof.
  intros get teapot.
  split; [|split].
  - apply (forwarder_answer_reaches_client
             (MoreFixtures.in_front_of (Return (JSONResponse 204 JNull)))
             ApiGateway.GetUsersMe get); [by eexists | reflexivity].
  - destruct (forwarder_answer_reaches_client (MoreFixtures.in_front_of teapot)
                ApiGateway.GetUsersMe get) as [_ Hstatus]; [by eexists|].
    apply (Hstatus 418 "teapot"). reflexivity.
  - destruct (forwarder_answer_reaches_client (MoreFixtures.in_front_of teapot)
                ApiGateway.GetAuthValidate get) as [_ Hstatus]; [exact I|].
    apply (Hstatus 418 "teapot"). reflexivity.
Defined.

Lemma policy_requests_bypass_the_gates_witness :
  let delete := ApiGateway.mkRequest "DELETE" "/api/v1/authz/policies/p1" [] [] "" in
  GatewayRouting.dispatch "DELETE" "/api/v1/authz/policies/p1"
  = Some (ApiGateway.Proxy "authz/policies/p1")
  /\ ApiGateway.handler MoreFixtures.strangers_only (ApiGateway.Proxy "authz/policies/p1")
       delete
     = Return (JSONResponse 200 (JObj [("service", JStr "authorization");
                                       ("path", JStr "/policies/p1")])).
Proof.
  intros delete.
  assert (Hmethod : In (ApiGateway.method delete) GatewayRouting.proxy_methods)
    by (simpl; tauto).
  destruct (policy_requests_bypass_the_gates MoreFixtures.strangers_only delete "p1" Hmethod)
    as [Hroute Hanswer].
  split; [exact Hroute|]. etransitivity; [exact Hanswer | reflexivity].
Defined.

(** ** The health endpoints *)

Section HealthFacts.

(** X21.  The two health endpoints always answer.  That of the gateway
    always answers 200: its [status] is [healthy] exactly when both
    upstream checks return true, [unhealthy] when one returns false or
    raises, and the 503 of its outer handler is never sent.  That of
    the authorization service answers 503 exactly when a check that was
    made raises, and 200 otherwise; with 503 the status is [unhealthy],
    with 200 it is [healthy] exactly when the database, the policy
    service and the engine all said yes, so a service that is not there
    counts as unhealthy, with status 200. *)
Theorem health_endpoints_always_answer
    (check : string -> outcome bool) (now : Z)
    (db : outcome bool) (policy engine : option (outcome bool)) (now_iso : string) :
  (exists body,
     GatewayManagement.gateway_health_check check now = Return (JSONResponse 200 body)
     /\ json_get "status" body
        = Some (JStr (if said_healthy (check "authentication")
                         && said_healthy (check "authorization")
                      then "healthy" else "unhealthy")))
  /\ (exists body,
        AuthorizationEndpoints.health_check db policy engine now_iso
        = Return (JSONResponse (if check_raised db policy engine then 503 else 200) body)
        /\ (if check_raised db policy engine
            then json_get "status" body = Some (JStr "unhealthy")
            else (json_get "status" body = Some (JStr "healthy")
                  <-> db = Return true /\ policy = Some (Return true)
                      /\ engine = Some (Return true))))
  /\ (check_raised db policy engine = true
      <-> exists e,
            db = Raise e
            \/ (exists b, db = Return b) /\ policy = Some (Raise e)
            \/ (exists b, db = Return b)
               /\ (exists b, AuthorizationEndpoints.health_of policy = Return b)
               /\ engine = Some (Raise e)).
Proof.
  split; [|split].
  - unfold GatewayManagement.gateway_health_check, GatewayManagement.service_health.
    destruct (check "authentication") as [[|]|e1], (check "authorization") as [[|]|e2];
      simpl; eexists; split; reflexivity.
  - unfold AuthorizationEndpoints.health_check.
    destruct db as [[|]|e0], policy as [[[|]|e1]|], engine as [[[|]|e2]|]; simpl;
      eexists; (split; [reflexivity|]); try reflexivity;
      (split; [intros H; try discriminate H; repeat split; reflexivity
              | intros (H1 & H2 & H3); try discriminate H1; try discriminate H2;
                try discriminate H3; reflexivity]).
  - destruct db as [[|]|e0], policy as [[[|]|e1]|], engine as [[[|]|e2]|]; simpl;
      (split;
       [ intros H; try discriminate H; eexists;
         first [ left; reflexivity
               | right; left; split; [eexists; reflexivity | reflexivity]
               | right; right; split; [eexists; reflexivity|];
                 split; [eexists; reflexivity | reflexivity] ]
       | intros (e & [H|[[_ H]|(_ & _ & H)]]); try discriminate H; reflexivity ]).
Qed.

End HealthFacts.

(** ** The authorization service *)

Section AuthorizationEndpointsFacts.
Import AuthorizationService AuthorizationEndpoints.

Lemma count_effect_nonneg e rs : 0 <= count_effect e rs.
Proof. unfold count_effect. lia. Qed.

Lemma count_effect_partition rs :
  count_effect PERMIT rs + count_effect DENY rs + count_effect INDETERMINATE rs
  = Z.of_nat (List.length rs).
Proof.
  unfold count_effect. induction rs as [|r rs IH]; [reflexivity|].
  cbn [List.filter]. destruct (effect (decision r)); cbn [List.length]; lia.
Qed.

Lemma bulk_response_accounts rs : summary_accounts (bulk_response rs).
Proof.
  exists (count_effect PERMIT rs), (count_effect DENY rs), (count_effect INDETERMINATE rs).
  split; [reflexivity|].
  repeat split; try apply count_effect_nonneg. apply count_effect_partition.
Qed.

(** X22.  The two bulk endpoints.  A response carries the results of the
    engine as they are, and its summary counts every result once:
    [total] is their number and [permitted], [denied] and [errors] add
    up to it.  When the engine raises, the endpoint answers 500 with the
    message of the exception: the bulk endpoints do not fail closed with
    a denial per request as [authorize] does. *)
Theorem bulk_endpoints_account_for_every_result
    (engine : BulkAuthorizationRequest -> outcome (list AuthorizationResponse))
    (request : BulkAuthorizationRequest) :
  match authorize_bulk engine request with
  | Return resp => engine request = Return (results resp) /\ summary_accounts resp
  | Raise x =>
      exists e, engine request = Raise e
        /\ x = HTTPException 500 ("Bulk authorization failed: " +:+ str_exn e)
  end
  /\ match authorize_batch_optimized engine request with
     | Return resp => engine request = Return (results resp) /\ summary_accounts resp
     | Raise x =>
         exists e, engine request = Raise e
           /\ x = HTTPException 500 ("Batch authorization failed: " +:+ str_exn e)
     end.
Proof.
  unfold authorize_bulk, authorize_batch_optimized.
  destruct (engine request) as [rs|e]; simpl.
  - repeat split; apply bulk_response_accounts.
  - split; exists e; split; reflexivity.
Qed.

Lemma assoc_app {A} k (l1 l2 : list (string * A)) :
  assoc k (l1 ++ l2) = match assoc k l1 with Some v => Some v | None => assoc k l2 end.
Proof.
  induction l1 as [|[k' v'] l1 IH]; [reflexivity|].
  simpl. destruct (String.eqb k k'); [reflexivity | exact IH].
Qed.

Lemma assoc_filter_if k k' v :
  assoc k (filter_if k' v) = if String.eqb k k' then as_filter v else None.
Proof.
  unfold filter_if, as_filter. destruct v as [s|]; simpl.
  - destruct (String.eqb s ""); simpl; destruct (String.eqb k k'); reflexivity.
  - destruct (String.eqb k k'); reflexivity.
Qed.

(** X23.  The filters of the audit query.  [limit] and [offset] are
    always among them; each of the six optional parameters is among
    them exactly when it was given and is not the empty string, and then
    with its value; and the audit service is asked with these filters
    and nothing else, its exception becoming a 500. *)
Theorem audit_filters_carry_what_was_given
    (audit : list (string * json) -> outcome (list json)) (q : AuditQuery) :
  let filters := audit_filters q in
  assoc "limit" filters = Some (JNum (limit q))
  /\ assoc "offset" filters = Some (JNum (offset q))
  /\ assoc "start_time" filters = as_filter (start_time q)
  /\ assoc "end_time" filters = as_filter (end_time q)
  /\ assoc "user_id" filters = as_filter (q_user_id q)
  /\ assoc "resource_id" filters = as_filter (q_resource_id q)
  /\ assoc "action" filters = as_filter (q_action q)
  /\ assoc "decision" filters = as_filter (q_decision q)
  /\ match query_audit_log audit q with
     | Return _ => exists decisions, audit filters = Return decisions
     | Raise x =>
         exists e, audit filters = Raise e
           /\ x = HTTPException 500 ("Failed to query audit log: " +:+ str_exn e)
     end.
Proof.
  cbv zeta. unfold audit_filters.
  repeat split;
    try (rewrite !assoc_app, !assoc_filter_if; cbn;
         repeat match goal with
                | |- context [as_filter ?v] => destruct (as_filter v)
                end; reflexivity).
  unfold query_audit_log, audit_filters.
  match goal with
  | |- context [audit ?f] => destruct (audit f) as [decisions|e]
  end; simpl.
  - by exists decisions.
  - by exists e.
Qed.

End AuthorizationEndpointsFacts.

(** ** The endpoints of the authentication service *)

Section AuthenticationEndpointsFacts.
Import AuthenticationEndpoints.

Context {bcrypt : Bcrypt}.

Lemma require_authentication_as app credentials w :
  require_authentication app credentials w
  = (match authenticated_as app credentials with
     | Some user => Return user
     | None => unauthorized
     end, w).
Proof.
  unfold require_authentication, get_current_user, authenticated_as, bind.
  destruct credentials as [token|]; [|reflexivity].
  unfold try_, ask. destruct (authenticate_jwt app token) as [[user|]|e]; reflexivity.
Qed.

(** X24.  A caller who sends no bearer token, or one that
    [authenticate_jwt] does not resolve to a user (it returns nothing,
    or raises anything at all), gets 401 from every protected endpoint,
    and nothing happens: no row is read or written and no token or
    session call is made. *)
Theorem unauthenticated_callers_change_nothing app credentials w :
  authenticated_as app credentials = None ->
  (forall update_data now,
     update_current_user_profile app credentials update_data now w = (unauthorized, w))
  /\ (forall current new salt now,
        change_password app credentials current new salt now w = (unauthorized, w))
  /\ (forall session_id, end_session app credentials session_id w = (unauthorized, w))
  /\ logout app credentials w = (unauthorized, w)
  /\ get_current_user_profile app credentials w = (unauthorized, w)
  /\ get_current_sessions app credentials w = (unauthorized, w)
  /\ end_all_sessions app credentials w = (unauthorized, w).
Proof.
  intros Hnone.
  assert (Hreq : require_authentication app credentials w = (unauthorized, w))
    by (rewrite require_authentication_as, Hnone; reflexivity).
  repeat split; intros;
    unfold update_current_user_profile, change_password, end_session, logout,
      get_current_user_profile, get_current_sessions, end_all_sessions;
    try exact Hreq; unfold bind at 1; rewrite Hreq; reflexivity.
Qed.

(** X25.  Refreshing.  An invalid refresh token is a 401 and nothing is
    called.  For a valid one, with rotation switched off only an access
    token is made and the refresh token of the answer is null; with
    rotation on, the access token, then the new refresh token are made
    and only then the old one is revoked, and when that revocation
    raises, the client gets an error although both new tokens exist. *)
Theorem refresh_rotates_after_minting app refresh w :
  (validate_refresh_token app refresh = Return None ->
   refresh_token app refresh w = (Raise (HTTPException 401 "Invalid refresh token"), w))
  /\ (forall user access,
        validate_refresh_token app refresh = Return (Some user) ->
        create_access_token app user = Return access ->
        (enable_refresh app = false ->
         refresh_token app refresh w
         = (Return (JObj [("access_token", JStr access); ("refresh_token", JNull);
                          ("token_type", JStr "Bearer");
                          ("expires_in", JNum (expiration_minutes app * 60))]),
            mkWorld (service w) (calls w ++ [CreateAccessToken (id user)])))
        /\ (enable_refresh app = true ->
            forall new,
              create_refresh_token app user = Return new ->
              refresh_token app refresh w
              = (match revoke_token app refresh with
                 | Return _ =>
                     Return (JObj [("access_token", JStr access);
                                   ("refresh_token", JStr new);
                                   ("token_type", JStr "Bearer");
                                   ("expires_in", JNum (expiration_minutes app * 60))])
                 | Raise (HTTPException c d) => Raise (HTTPException c d)
                 | Raise (Exception _) =>
                     Raise (HTTPException 500 "Token refresh failed")
                 end,
                 mkWorld (service w)
                   (calls w ++ [CreateAccessToken (id user);
                                CreateRefreshToken (id user);
                                RevokeToken refresh])))).
Proof.
  split.
  - intros Hv. unfold refresh_token, try_reraise, bind, ask. rewrite Hv. reflexivity.
  - intros user access Hv Ha. split.
    + intros Hoff. unfold refresh_token, try_reraise, bind, ask, call.
      rewrite Hv, Ha, Hoff. reflexivity.
    + intros Hon new Hn. unfold refresh_token, try_reraise, bind, ask, call.
      rewrite Hv, Ha, Hon, Hn. simpl. rewrite <- !app_assoc. simpl.
      destruct (revoke_token app refresh) as [[]|[c d|m]]; reflexivity.
Qed.

(** X26.  [validate_token] never fails and changes nothing.  It says
    [valid] only for a token that [authenticate_jwt] resolves to a
    user, and then names that user; otherwise it names none. *)
Theorem validate_token_always_answers app credentials w :
  exists v,
    validate_token app credentials w = (Return v, w)
    /\ (valid v = true ->
        exists user, authenticated_as app credentials = Some user
                     /\ user_id v = Some (id user))
    /\ (valid v = false -> user_id v = None /\ scopes v = None /\ expires_at v = None).
Proof.
  unfold validate_token, authenticated_as, try_, bind, ask, ret.
  destruct credentials as [token|].
  - destruct (authenticate_jwt app token) as [[user|]|e].
    + destruct (decode_token app token) as [token_info|e].
      * destruct (fromtimestamp_isoformat app (default (JNum 0) (assoc "exp" token_info)))
          as [expires|e]; eexists; (split; [reflexivity|]); simpl; split;
          try discriminate; try (intros _; eauto); try (intros _; repeat split).
      * eexists; (split; [reflexivity|]); simpl; split; try discriminate.
        intros _; repeat split.
    + eexists; (split; [reflexivity|]); simpl; split; try discriminate.
      intros _; repeat split.
    + eexists; (split; [reflexivity|]); simpl; split; try discriminate.
      intros _; repeat split.
  - eexists; (split; [reflexivity|]); simpl; split; try discriminate.
    intros _; repeat split.
Qed.

(** X27.  Logging out.  The token is revoked first and the sessions of
    the user are ended next.  When the revocation raises, the sessions
    are not ended; whatever is raised by either call, an
    [HTTPException] too, is answered with 500. *)
Theorem logout_revokes_then_ends_sessions app token user w :
  authenticate_jwt app token = Return (Some user) ->
  logout app (Some token) w
  = match revoke_token app token with
    | Return _ =>
        (match end_session_by_user app (id user) with
         | Return _ => Return (JObj [("message", JStr "Logged out successfully")])
         | Raise _ => Raise (HTTPException 500 "Logout failed")
         end,
         mkWorld (service w) (calls w ++ [RevokeToken token; EndSessionByUser (id user)]))
    | Raise _ =>
        (Raise (HTTPException 500 "Logout failed"),
         mkWorld (service w) (calls w ++ [RevokeToken token]))
    end.
Proof.
  intros Ha. unfold logout. unfold bind at 1.
  rewrite require_authentication_as. simpl. rewrite Ha.
  unfold try_, bind, call, ret, raise.
  destruct (revoke_token app token) as [[]|e]; simpl; [|reflexivity].
  rewrite <- app_assoc. simpl.
  destruct (end_session_by_user app (id user)) as [[]|e]; reflexivity.
Qed.

Lemma verify_password_total user_id password now s :
  exists b s', UserService.verify_password user_id password now s = (Return b, s')
               /\ same_tables s s'.
Proof.
  unfold UserService.verify_password, UserService.try_, UserService.bind.
  destruct (get_user_by_id_total user_id now s) as (r & s' & -> & Hs).
  destruct r as [u|]; simpl; eauto.
Qed.

Lemma change_password_endpoint_eq app token user current new salt now w :
  authenticate_jwt app token = Return (Some user) ->
  change_password app (Some token) current new salt now w
  = let '(v, s1) := UserService.verify_password (id user) current now (service w) in
    match v with
    | Return true =>
        let '(c, s2) := UserService.change_password (id user) new salt now s1 in
        match c with
        | Return true =>
            (match end_all_user_sessions app (id user) with
             | Return _ => Return (JObj [("message", JStr "Password changed successfully")])
             | Raise (HTTPException code d) => Raise (HTTPException code d)
             | Raise (Exception _) => Raise (HTTPException 500 "Password change failed")
             end,
             mkWorld s2 (calls w ++ [EndAllUserSessions (id user)]))
        | Return false | Raise (Exception _) =>
            (Raise (HTTPException 500 "Password change failed"), mkWorld s2 (calls w))
        | Raise (HTTPException code d) =>
            (Raise (HTTPException code d), mkWorld s2 (calls w))
        end
    | Return false =>
        (Raise (HTTPException 400 "Current password is incorrect"), mkWorld s1 (calls w))
    | Raise (HTTPException code d) => (Raise (HTTPException code d), mkWorld s1 (calls w))
    | Raise (Exception _) =>
        (Raise (HTTPException 500 "Password change failed"), mkWorld s1 (calls w))
    end.
Proof.
  intros Ha. unfold change_password. unfold bind at 1.
  rewrite require_authentication_as. simpl. rewrite Ha.
  unfold try_reraise, bind, user_service. simpl.
  destruct (UserService.verify_password (id user) current now (service w))
    as [[[|]|[code d|m]] s1]; simpl; try reflexivity.
  destruct (UserService.change_password (id user) new salt now s1)
    as [[[|]|[code d|m]] s2]; simpl; try reflexivity.
  unfold call, ret. simpl.
  destruct (end_all_user_sessions app (id user)) as [count|[code d|m]]; reflexivity.
Qed.

(** X28.  Changing the password through the endpoint.  The only call it
    makes ends all sessions of the user, and only after the row has its
    new hash.  A wrong current password is answered with 400: no row
    changes and no session is ended. *)
Theorem password_change_ends_sessions_last app token user current new salt now w :
  authenticate_jwt app token = Return (Some user) ->
  let r := (change_password app (Some token) current new salt now w).1 in
  let w' := (change_password app (Some token) current new salt now w).2 in
  (calls w' = calls w \/ calls w' = calls w ++ [EndAllUserSessions (id user)])
  /\ ((UserService.verify_password (id user) current now (service w)).1 = Return false ->
      r = Raise (HTTPException 400 "Current password is incorrect")
      /\ calls w' = calls w /\ same_tables (service w) (service w'))
  /\ (calls w' <> calls w ->
      (UserService.verify_password (id user) current now (service w)).1 = Return true
      /\ exists hash,
           hashpw new salt = Some hash
           /\ existsb (UserService.by_id (id user)) (UserService.users (service w)) = true
           /\ UserService.users (service w')
              = List.map (fun row => if UserService.by_id (id user) row
                                     then UserService.values_password hash now row
                                     else row)
                  (UserService.users (service w))).
Proof.
  intros Ha. cbv zeta. rewrite (change_password_endpoint_eq _ _ _ _ _ _ _ _ Ha).
  destruct (verify_password_total (id user) current now (service w))
    as (b & s1 & Hv & Hs).
  rewrite Hv. simpl. destruct b.
  - rewrite change_password_eq. destruct Hs as (Hu & _).
    destruct (hashpw new salt) as [hash|] eqn:Hh; simpl.
    + destruct (existsb (UserService.by_id (id user)) (UserService.users s1)) eqn:Hex;
        simpl.
      * split; [by right|]. split; [discriminate|].
        intros _. split; [reflexivity|]. exists hash. rewrite <- Hu. by rewrite Hex.
      * split; [by left|]. split; [discriminate|]. intros Hc. by destruct Hc.
    + split; [by left|]. split; [discriminate|]. intros Hc. by destruct Hc.
  - simpl. split; [by left|]. split.
    + intros _. split; [reflexivity|]. split; [reflexivity | exact Hs].
    + intros Hc. by destruct Hc.
Qed.

Lemma update_profile_endpoint_eq app token user update_data now w :
  authenticate_jwt app token = Return (Some user) ->
  update_current_user_profile app (Some token) update_data now w
  = let '(u, s1) := UserService.update_user (id user) update_data now (service w) in
    (match u with
     | Return (Some updated) => Return updated
     | Return None => Raise (HTTPException 404 "User not found")
     | Raise (HTTPException code d) => Raise (HTTPException code d)
     | Raise (Exception _) => Raise (HTTPException 500 "Profile update failed")
     end, mkWorld s1 (calls w)).
Proof.
  intros Ha. unfold update_current_user_profile. unfold bind at 1.
  rewrite require_authentication_as. simpl. rewrite Ha.
  unfold try_reraise, bind, user_service. simpl.
  destruct (UserService.update_user (id user) update_data now (service w))
    as [[[u|]|[code d|m]] s1]; reflexivity.
Qed.

(** X29.  An update of the own profile that names no column the
    endpoint may write is answered with 404 [User not found], whether
    the user exists or not, and changes nothing. *)
Theorem empty_profile_update_is_404 app token user update_data now w :
  authenticate_jwt app token = Return (Some user) ->
  UserService.update_fields update_data = [] ->
  update_current_user_profile app (Some token) update_data now w
  = (Raise (HTTPException 404 "User not found"), w).
Proof.
  intros Ha Hf. rewrite (update_profile_endpoint_eq _ _ _ _ _ _ Ha), update_user_eq, Hf.
  by destruct w.
Qed.

(** X30.  The two DELETE routes under [/sessions].  Every non-empty
    segment, [all] too, is served by [end_session] with the segment as
    the session id: [end_all_sessions] is never reached. *)
Theorem end_all_sessions_is_shadowed app credentials segment :
  delete_sessions app credentials segment
  = if String.eqb segment "" then None
    else Some (end_session app credentials segment).
Proof.
  unfold delete_sessions, delete_session_routes, first_route.
  destruct (String.eqb segment "") eqn:He; [|reflexivity].
  apply String.eqb_eq in He. subst segment. reflexivity.
Qed.

End AuthenticationEndpointsFacts.

(** ** Instances *)

Lemma unauthenticated_callers_change_nothing_witness :
  AuthenticationEndpoints.logout MoreFixtures.accepting (Some "forged") MoreFixtures.fresh
  = (unauthorized, MoreFixtures.fresh)
  /\ AuthenticationEndpoints.end_all_sessions MoreFixtures.accepting None MoreFixtures.fresh
     = (unauthorized, MoreFixtures.fresh).
Proof.
  split.
  - apply (unauthenticated_callers_change_nothing MoreFixtures.accepting (Some "forged")
             MoreFixtures.fresh eq_refl).
  - apply (unauthenticated_callers_change_nothing MoreFixtures.accepting None
             MoreFixtures.fresh eq_refl).
Defined.

Lemma logout_revokes_then_ends_sessions_witness :
  AuthenticationEndpoints.logout MoreFixtures.accepting (Some "good") MoreFixtures.fresh
  = (Return (JObj [("message", JStr "Logged out successfully")]),
     AuthenticationEndpoints.mkWorld (Fixtures.cold 0)
       [AuthenticationEndpoints.RevokeToken "good";
        AuthenticationEndpoints.EndSessionByUser "u1"]).
Proof.
  rewrite (logout_revokes_then_ends_sessions MoreFixtures.accepting "good"
             (AuthenticationEndpoints.mkProfile "u1") MoreFixtures.fresh eq_refl).
  reflexivity.
Defined.

Lemma password_change_ends_sessions_last_witness :
  (AuthenticationEndpoints.change_password MoreFixtures.accepting (Some "good")
     "guess" "correct horse" "salt" 9 MoreFixtures.fresh).1
  = Raise (HTTPException 400 "Current password is incorrect")
  /\ AuthenticationEndpoints.calls
       (AuthenticationEndpoints.change_password MoreFixtures.accepting (Some "good")
          "guess" "correct horse" "salt" 9 MoreFixtures.fresh).2 = [].
Proof.
  destruct (password_change_ends_sessions_last MoreFixtures.accepting "good"
              (AuthenticationEndpoints.mkProfile "u1") "guess" "correct horse" "salt" 9
              MoreFixtures.fresh eq_refl) as (_ & Hwrong & _).
  destruct Hwrong as (Hr & Hc & _); [vm_compute; reflexivity|].
  split; [exact Hr | exact Hc].
Defined.

Lemma empty_profile_update_is_404_witness :
  AuthenticationEndpoints.update_current_user_profile MoreFixtures.accepting (Some "good")
    MoreFixtures.no_update 9 MoreFixtures.fresh
  = (Raise (HTTPException 404 "User not found"), MoreFixtures.fresh).
Proof.
  apply (empty_profile_update_is_404 MoreFixtures.accepting "good"
           (AuthenticationEndpoints.mkProfile "u1")); reflexivity.
Defined.
